(** * The grammar-correction agent: its request handlers, verified

    The program is one Express application (six POST routes) in front of a
    hosted language model, with two in-memory stores (the objects
    [conversationHistory] and [therapistHistory]).  This development embeds
    the handlers shallowly:

    - [Module JS] holds the parts of the JavaScript platform the handlers
      use: conversion to boolean, to string and to property key, the
      rendering of numbers, [JSON.parse], [JSON.stringify],
      [String.prototype.trim], and the search of a regular expression.
    - [Module Store] is a JavaScript object used as a map: its own
      properties, and the properties it inherits from [Object.prototype].
    - [Module Agent] holds the six handlers, each as a function from the
      request body, the outcome of the model call and the two stores to a
      response, the new stores and the list of prompts sent to the model.

    A handler runs from its first statement to its response without
    another handler running in between: what happens when two requests
    overlap at an [await] is outside this model. *)

From Stdlib Require Import ZArith Ascii String DecimalString.
From stdpp Require Import gmap strings list fin_maps.

#[local] Set Warnings "-register-all".

(** ** The JavaScript platform *)

Module JS.

(** A JavaScript string is a sequence of UTF-16 code units.  It is carried
    here in its (generalised) UTF-8 form, one [ascii] per byte: every
    character the handlers look at ([{], [}], the JSON punctuation, white
    space below U+0080) is a single byte that occurs in no longer
    sequence. *)

Definition quote : string := String (ascii_of_nat 34) "".

Definition concat_all (parts : list string) : string :=
  fold_right String.append "" parts.

(** Array.prototype.join *)
Fixpoint join (sep : string) (parts : list string) : string :=
  match parts with
  | [] => ""
  | [p] => p
  | p :: rest => p +:+ sep +:+ join sep rest
  end.

Fixpoint repeat_string (s : string) (n : nat) : string :=
  match n with
  | O => ""
  | S n' => s +:+ repeat_string s n'
  end.

(** *** Numbers

    A number reaches a handler from JSON text, so it is carried as the
    decimal the text wrote: [(-1)^negative * coefficient * 10^exponent10].
    JavaScript reads it as the nearest IEEE 754 binary64 value (ties to
    even); what the handlers can observe of a number (whether it is zero,
    and its rendering by Number::toString) is computed from that value
    with exact integer arithmetic. *)

Record Number : Type := mkNumber
  { negative : bool; coefficient : Z; exponent10 : Z }.

(** A binary64 magnitude: [significand * 2^exponent2], or infinity. *)
Inductive Binary64 : Type :=
  | Finite (significand exponent2 : Z)
  | Infinity.

Definition round_half_even (num den : Z) : Z :=
  let q := (num / den)%Z in
  let r2 := (2 * (num mod den))%Z in
  if (r2 <? den)%Z then q
  else if (den <? r2)%Z then (q + 1)%Z
  else if Z.even q then q else (q + 1)%Z.

(** [scaled_le b n num den] is [b^n <= num / den] for positive [num], [den]. *)
Definition scaled_le (b n num den : Z) : bool :=
  if (0 <=? n)%Z then (den * b ^ n <=? num)%Z else (den <=? num * b ^ (- n))%Z.

Definition floor_log2 (num den : Z) : Z :=
  let e := (Z.log2 num - Z.log2 den)%Z in
  if scaled_le 2 e num den then e else (e - 1)%Z.

(** The binary64 value nearest to [num / den] (both positive, or
    [num = 0]). *)
Definition nearest_binary64 (num den : Z) : Binary64 :=
  if (num =? 0)%Z then Finite 0 (-1074)
  else
    let q := Z.max (floor_log2 num den - 52) (-1074) in
    let f := if (0 <=? q)%Z then round_half_even num (den * 2 ^ q)
             else round_half_even (num * 2 ^ (- q)) den in
    let '(f, q) := if (f =? 2 ^ 53)%Z then (2 ^ 52, q + 1)%Z else (f, q) in
    if (971 <? q)%Z then Infinity else Finite f q.

(** The fraction [coefficient * 10^exponent10] as numerator and denominator. *)
Definition decimal_fraction (c e : Z) : Z * Z :=
  if (0 <=? e)%Z then (c * 10 ^ e, 1)%Z else (c, 10 ^ (- e))%Z.

Definition binary64_of_decimal (c e : Z) : Binary64 :=
  let '(num, den) := decimal_fraction c e in nearest_binary64 num den.

Definition Number_value (n : Number) : Binary64 :=
  binary64_of_decimal (coefficient n) (exponent10 n).

Definition Binary64_eqb (x y : Binary64) : bool :=
  match x, y with
  | Finite f q, Finite f' q' => (f =? f')%Z && (q =? q')%Z
  | Infinity, Infinity => true
  | _, _ => false
  end.

Definition Number_is_zero (n : Number) : bool :=
  Binary64_eqb (Number_value n) (Finite 0 (-1074)).

Definition digits_of (z : Z) : string :=
  NilZero.string_of_uint (N.to_uint (Z.to_N z)).

Definition floor_log10 (num den : Z) : Z :=
  let e := (Z.of_nat (String.length (digits_of num))
            - Z.of_nat (String.length (digits_of den)))%Z in
  if scaled_le 10 e num den then e else (e - 1)%Z.

(** [closer num den x c c'] : is [c * 10^x] at least as close to
    [num / den] as [c' * 10^x], where [c * 10^x <= num / den <= c' * 10^x];
    on a tie the even coefficient wins. *)
Definition closer (num den x c c' : Z) : bool :=
  let '(p, r) := decimal_fraction 1 x in
  (* distances, over the common denominator den * r *)
  let below := (num * r - c * p * den)%Z in
  let above := (c' * p * den - num * r)%Z in
  if (below <? above)%Z then true
  else if (above <? below)%Z then false
  else Z.even c.

(** Number::toString, step 5: the least [k] such that some decimal of [k]
    digits has the value [v] as its nearest binary64, and among those
    decimals the one closest to [v].  The result is the coefficient and the
    power of ten of that decimal. *)
Fixpoint shortest_from (fuel : nat) (k : Z) (num den n0 : Z) (v : Binary64)
  : Z * Z :=
  let x := (n0 - k)%Z in
  let '(p, r) := decimal_fraction 1 x in
  let c := ((num * r) / (den * p))%Z in
  let ok_c := (0 <? c)%Z && Binary64_eqb (binary64_of_decimal c x) v in
  let ok_c' := Binary64_eqb (binary64_of_decimal (c + 1) x) v in
  match ok_c, ok_c' with
  | true, true => if closer num den x c (c + 1) then (c, x) else ((c + 1)%Z, x)
  | true, false => (c, x)
  | false, true => ((c + 1)%Z, x)
  | false, false =>
      match fuel with
      | O => (c, x)
      | S fuel' => shortest_from fuel' (k + 1) num den n0 v
      end
  end.

Fixpoint strip_zeros (fuel : nat) (c x : Z) : Z * Z :=
  match fuel with
  | O => (c, x)
  | S fuel' =>
      if ((0 <? c) && (c mod 10 =? 0))%Z
      then strip_zeros fuel' (c / 10)%Z (x + 1)%Z
      else (c, x)
  end.

Definition shortest_decimal (f q : Z) : Z * Z :=
  let '(num, den) := if (0 <=? q)%Z then (f * 2 ^ q, 1)%Z else (f, 2 ^ (- q))%Z in
  let n0 := (floor_log10 num den + 1)%Z in
  let '(c, x) := shortest_from 17 1 num den n0 (Finite f q) in
  strip_zeros 400 c x.

Definition exponent_suffix (e : Z) : string :=
  "e" +:+ (if (0 <=? e)%Z then "+" else "-") +:+ digits_of (Z.abs e).

(** Number::toString, steps 6 to 10, for the digits [s] (there are [k] of
    them) and the position [n] of the decimal point. *)
Definition layout_decimal (s : string) (n : Z) : string :=
  let k := Z.of_nat (String.length s) in
  if ((k <=? n) && (n <=? 21))%Z then
    s +:+ repeat_string "0" (Z.to_nat (n - k))
  else if ((0 <? n) && (n <=? 21))%Z then
    substring 0 (Z.to_nat n) s +:+ "." +:+
    substring (Z.to_nat n) (Z.to_nat (k - n)) s
  else if ((-6 <? n) && (n <=? 0))%Z then
    "0." +:+ repeat_string "0" (Z.to_nat (- n)) +:+ s
  else if (k =? 1)%Z then
    s +:+ exponent_suffix (n - 1)
  else
    substring 0 1 s +:+ "." +:+ substring 1 (Z.to_nat (k - 1)) s
    +:+ exponent_suffix (n - 1).

(** Number::toString (radix 10). *)
Definition Number_toString (n : Number) : string :=
  match Number_value n with
  | Infinity => if negative n then "-Infinity" else "Infinity"
  | Finite f q =>
      if (f =? 0)%Z then "0"
      else
        let '(c, x) := shortest_decimal f q in
        let s := digits_of c in
        (if negative n then "-" else "") +:+
        layout_decimal s (Z.of_nat (String.length s) + x)
  end.

(** *** Values, exceptions and conversions *)

(** The values a handler meets are those of JSON, and [undefined] (the
    [None] of [option JSON]). *)
Inductive JSON : Type :=
  | JNull
  | JBool (b : bool)
  | JNumber (n : Number)
  | JString (s : string)
  | JArray (items : list JSON)
  | JObject (members : list (string * JSON)).

Inductive Exception : Type :=
  | Error (message : string)
  | TypeError (message : string)
  | SyntaxError (message : string).

(** error.message *)
Definition message_of (e : Exception) : string :=
  match e with
  | Error m | TypeError m | SyntaxError m => m
  end.

(** A computation that returns normally or throws. *)
Inductive Completion (A : Type) : Type :=
  | Normal (a : A)
  | Throw (e : Exception).
Arguments Normal {A} a.
Arguments Throw {A} e.

#[global] Instance Completion_ret : MRet Completion := fun A a => Normal a.

#[global] Instance Completion_bind : MBind Completion := fun A B k c =>
  match c with
  | Normal a => k a
  | Throw e => Throw e
  end.

(** Property lookup on an object made by a JSON parser, for a name that
    [Object.prototype] does not define. *)
Fixpoint member (name : string) (members : list (string * JSON)) : option JSON :=
  match members with
  | [] => None
  | (k, v) :: rest => if String.eqb k name then Some v else member name rest
  end.

(** ToBoolean *)
Definition ToBoolean (v : option JSON) : bool :=
  match v with
  | None => false
  | Some JNull => false
  | Some (JBool b) => b
  | Some (JNumber n) => negb (Number_is_zero n)
  | Some (JString s) => negb (String.eqb s "")
  | Some (JArray _) => true
  | Some (JObject _) => true
  end.

Fixpoint sequence {A : Type} (cs : list (Completion A)) : Completion (list A) :=
  match cs with
  | [] => Normal []
  | c :: rest => a ← c; l ← sequence rest; Normal (a :: l)
  end.

(** ToString.  An array is joined with commas, [null] elements rendering
    as the empty string (Array.prototype.toString).  An object renders
    through [Object.prototype.toString], unless the JSON gave it a
    [toString] member of its own: that member is no function, and neither
    it nor [valueOf] yields a primitive. *)
Fixpoint ToString (v : JSON) : Completion string :=
  match v with
  | JNull => Normal "null"
  | JBool b => Normal (if b then "true" else "false")
  | JNumber n => Normal (Number_toString n)
  | JString s => Normal s
  | JArray items =>
      parts ← sequence
        (map (fun item => match item with
                          | JNull => Normal ""
                          | _ => ToString item
                          end) items);
      Normal (join "," parts)
  | JObject members =>
      match member "toString" members with
      | Some _ => Throw (TypeError "Cannot convert object to primitive value")
      | None => Normal "[object Object]"
      end
  end.

(** ToString of a value that may be [undefined], as a template literal
    applies it. *)
Definition interpolate (v : option JSON) : Completion string :=
  match v with
  | None => Normal "undefined"
  | Some v => ToString v
  end.

(** ToPropertyKey: of these values, none is a symbol. *)
Definition ToPropertyKey (v : option JSON) : Completion string := interpolate v.

(** *** JSON.stringify *)

Definition hex_digit (n : N) : ascii :=
  match n with
  | 0 => "0" | 1 => "1" | 2 => "2" | 3 => "3" | 4 => "4" | 5 => "5"
  | 6 => "6" | 7 => "7" | 8 => "8" | 9 => "9" | 10 => "a" | 11 => "b"
  | 12 => "c" | 13 => "d" | 14 => "e" | _ => "f"
  end%N%char.

Definition unicode_escape (n : N) : string :=
  "\u" +:+ String (hex_digit (N.land (N.shiftr n 12) 15))
          (String (hex_digit (N.land (N.shiftr n 8) 15))
          (String (hex_digit (N.land (N.shiftr n 4) 15))
          (String (hex_digit (N.land n 15)) ""))).

(** The code unit of a surrogate written as three bytes, if these are. *)
Definition surrogate_of (b1 b2 b3 : ascii) : option N :=
  let n1 := N_of_ascii b1 in
  let n2 := N_of_ascii b2 in
  let n3 := N_of_ascii b3 in
  if ((n1 =? 237) && (160 <=? n2) && (n2 <=? 191) && (128 <=? n3) && (n3 <=? 191))%N
  then Some (53248 + N.shiftl (N.land n2 63) 6 + N.land n3 63)%N
  else None.

Definition quote_byte (c : ascii) : string :=
  let n := N_of_ascii c in
  if (n =? 34)%N then "\" +:+ quote
  else if (n =? 92)%N then "\\"
  else if (n =? 8)%N then "\b"
  else if (n =? 9)%N then "\t"
  else if (n =? 10)%N then "\n"
  else if (n =? 12)%N then "\f"
  else if (n =? 13)%N then "\r"
  else if (n <? 32)%N then unicode_escape n
  else String c "".

(** QuoteJSONString, without the enclosing quotes. *)
Fixpoint quote_bytes (s : string) : string :=
  match s with
  | "" => ""
  | String b1 (String b2 (String b3 rest) as tail) =>
      match surrogate_of b1 b2 b3 with
      | Some u => unicode_escape u +:+ quote_bytes rest
      | None => quote_byte b1 +:+ quote_bytes tail
      end
  | String c rest => quote_byte c +:+ quote_bytes rest
  end.

Definition QuoteJSONString (s : string) : string :=
  quote +:+ quote_bytes s +:+ quote.

(** JSON.stringify of a JSON value (no indentation, no replacer). *)
Fixpoint JSON_stringify (v : JSON) : string :=
  match v with
  | JNull => "null"
  | JBool b => if b then "true" else "false"
  | JNumber n =>
      match Number_value n with
      | Infinity => "null"
      | Finite _ _ => Number_toString n
      end
  | JString s => QuoteJSONString s
  | JArray items => "[" +:+ join "," (map JSON_stringify items) +:+ "]"
  | JObject members =>
      "{" +:+ join "," (map (fun kv => QuoteJSONString (fst kv) +:+ ":" +:+
                                        JSON_stringify (snd kv)) members)
      +:+ "}"
  end.

(** JSON.stringify of an object literal whose property values may be
    [undefined]: such a property is left out. *)
Definition stringify_properties (ps : list (string * option JSON)) : string :=
  "{" +:+ join ","
    (omap (fun kv => match snd kv with
                     | Some v => Some (QuoteJSONString (fst kv) +:+ ":" +:+
                                       JSON_stringify v)
                     | None => None
                     end) ps)
  +:+ "}".

(** *** String.prototype.trim *)

Definition bytes (l : list nat) : string :=
  string_of_list_ascii (map ascii_of_nat l).

(** WhiteSpace and LineTerminator: U+0009 to U+000D, U+0020, U+00A0,
    U+1680, U+2000 to U+200A, U+2028, U+2029, U+202F, U+205F, U+3000 and
    U+FEFF. *)
Definition white_space : list string :=
  map bytes
    ([[9]; [10]; [11]; [12]; [13]; [32]; [194; 160]; [225; 154; 128]]
     ++ map (fun b => [226; 128; b]) (seq 128 11)
     ++ [[226; 128; 168]; [226; 128; 169]; [226; 128; 175]; [226; 129; 159];
         [227; 128; 128]; [239; 187; 191]]).

Fixpoint strip_prefix (p s : string) : option string :=
  match p, s with
  | "", _ => Some s
  | String a p', String b s' => if Ascii.eqb a b then strip_prefix p' s' else None
  | String _ _, "" => None
  end.

Fixpoint strip_first (ps : list string) (s : string) : option string :=
  match ps with
  | [] => None
  | p :: rest =>
      match strip_prefix p s with
      | Some s' => Some s'
      | None => strip_first rest s
      end
  end.

Fixpoint trim_start_with (ws : list string) (fuel : nat) (s : string) : string :=
  match fuel with
  | O => s
  | S fuel' =>
      match strip_first ws s with
      | Some s' => trim_start_with ws fuel' s'
      | None => s
      end
  end.

Definition reverse (s : string) : string :=
  string_of_list_ascii (rev (list_ascii_of_string s)).

Definition trim (s : string) : string :=
  let s1 := trim_start_with white_space (String.length s) s in
  reverse (trim_start_with (map reverse white_space) (String.length s1) (reverse s1)).

(** *** Regular expressions

    The one pattern of the program, [/\{.*\}/s], is a sequence of literal
    characters and of [.*] (under the [s] flag the dot matches every code
    unit).  [match_here] is the backtracking matcher of the language: a
    star takes as much as it can and gives back one unit at a time. *)

Inductive Atom : Type :=
  | Lit (c : ascii)
  | AnyStar.

Fixpoint match_here (re : list Atom) : string -> option string :=
  match re with
  | [] => fun _ => Some ""
  | Lit c :: re' => fun s =>
      match s with
      | String a s' => if Ascii.eqb a c then String a <$> match_here re' s' else None
      | "" => None
      end
  | AnyStar :: re' =>
      fix star (s : string) : option string :=
        match s with
        | "" => match_here re' ""
        | String a s' =>
            match star s' with
            | Some m => Some (String a m)
            | None => match_here re' s
            end
        end
  end.

(** [s.match(re)] for a pattern without the [g] flag: the match at the
    leftmost position that has one ([None] is [null], [Some m] an array
    whose element 0 is [m]). *)
Fixpoint String_match (re : list Atom) (s : string) : option string :=
  match match_here re s with
  | Some m => Some m
  | None =>
      match s with
      | "" => None
      | String _ s' => String_match re s'
      end
  end.

(** *** JSON.parse *)

(** The engine's message names the offending token and varies with the
    engine's version; one wording stands for all of them. *)
Definition invalid_JSON : Exception := SyntaxError "Unexpected token in JSON".

Inductive Token : Type :=
  | TLBrace | TRBrace | TLBracket | TRBracket | TColon | TComma
  | TString (s : string)
  | TNumber (n : Number)
  | TTrue | TFalse | TNull.

(** What a string literal denotes, before it is laid out as bytes: bytes
    of the text, and code units written as [\uXXXX]. *)
Inductive Unit : Type :=
  | Byte (c : ascii)
  | CodeUnit (n : N).

Definition byte_of (n : N) : ascii := ascii_of_N n.

Definition utf8_of_code_point (n : N) : string :=
  (if n <? 128 then String (byte_of n) ""
   else if n <? 2048 then
     String (byte_of (192 + N.shiftr n 6))
       (String (byte_of (128 + N.land n 63)) "")
   else if n <? 65536 then
     String (byte_of (224 + N.shiftr n 12))
       (String (byte_of (128 + N.land (N.shiftr n 6) 63))
          (String (byte_of (128 + N.land n 63)) ""))
   else
     String (byte_of (240 + N.shiftr n 18))
       (String (byte_of (128 + N.land (N.shiftr n 12) 63))
          (String (byte_of (128 + N.land (N.shiftr n 6) 63))
             (String (byte_of (128 + N.land n 63)) ""))))%N.

(** Surrogates that stand in the text as bytes are code units too. *)
Fixpoint code_units (us : list Unit) : list Unit :=
  match us with
  | Byte b1 :: (Byte b2 :: Byte b3 :: rest) as tail =>
      match surrogate_of b1 b2 b3 with
      | Some u => CodeUnit u :: code_units rest
      | None => Byte b1 :: code_units tail
      end
  | u :: rest => u :: code_units rest
  | [] => []
  end.

(** A high surrogate followed by a low one is one code point. *)
Fixpoint layout_units (us : list Unit) : string :=
  match us with
  | [] => ""
  | Byte b :: rest => String b (layout_units rest)
  | CodeUnit hi :: (CodeUnit lo :: rest) as tail =>
      if ((55296 <=? hi) && (hi <? 56320) && (56320 <=? lo) && (lo <? 57344))%N
      then utf8_of_code_point (65536 + N.shiftl (hi - 55296) 10 + (lo - 56320))%N
           +:+ layout_units rest
      else utf8_of_code_point hi +:+ layout_units tail
  | CodeUnit n :: rest => utf8_of_code_point n +:+ layout_units rest
  end.

Definition hex_value (c : ascii) : option N :=
  let n := N_of_ascii c in
  (if (48 <=? n) && (n <=? 57) then Some (n - 48)
   else if (65 <=? n) && (n <=? 70) then Some (n - 55)
   else if (97 <=? n) && (n <=? 102) then Some (n - 87)
   else None)%N.

Definition hex4 (h1 h2 h3 h4 : ascii) : option N :=
  a ← hex_value h1; b ← hex_value h2; c ← hex_value h3; d ← hex_value h4;
  Some (4096 * a + 256 * b + 16 * c + d)%N.

Definition simple_escape (c : ascii) : option ascii :=
  match c with
  | "034" => Some "034" | "\" => Some "\" | "/" => Some "/"
  | "b" => Some "008" | "f" => Some "012" | "n" => Some "010"
  | "r" => Some "013" | "t" => Some "009"
  | _ => None
  end%char.

Definition punctuation (c : ascii) : option Token :=
  match c with
  | "{" => Some TLBrace | "}" => Some TRBrace
  | "[" => Some TLBracket | "]" => Some TRBracket
  | ":" => Some TColon | "," => Some TComma
  | _ => None
  end%char.

Definition is_JSON_space (c : ascii) : bool :=
  match c with
  | " " | "009" | "010" | "013" => true
  | _ => false
  end%char.

Definition is_digit (c : ascii) : bool :=
  let n := N_of_ascii c in ((48 <=? n) && (n <=? 57))%N.

Fixpoint take_digits (s : string) : string * string :=
  match s with
  | String c rest =>
      if is_digit c then let '(d, r) := take_digits rest in (String c d, r)
      else ("", s)
  | "" => ("", "")
  end.

Definition digits_value (d : string) : Z :=
  fold_left (fun acc c => (10 * acc + Z.of_N (N_of_ascii c - 48))%Z)
            (list_ascii_of_string d) 0%Z.

(** The grammar of a JSON number: an optional minus sign; an integer part,
    which is [0] or starts with a digit from 1 to 9; an optional fraction (a
    dot and one digit or more); an optional exponent ([e] or [E], an
    optional sign, one digit or more). *)
Definition parse_number (w : string) : option Number :=
  let '(neg, w1) := match w with
                    | String "-" r => (true, r)
                    | _ => (false, w)
                    end in
  let '(int, w2) := take_digits w1 in
  if String.eqb int "" || (String.prefix "0" int && negb (String.eqb int "0"))
  then None
  else
    '(frac, w3) ← match w2 with
                   | String "." r =>
                       let '(f, r') := take_digits r in
                       if String.eqb f "" then None else Some (f, r')
                   | _ => Some ("", w2)
                   end;
    '(exp, w4) ← match w3 with
                  | String c r =>
                      if Ascii.eqb c "e" || Ascii.eqb c "E" then
                        let '(sign, r1) := match r with
                                           | String "+" r1 => (1%Z, r1)
                                           | String "-" r1 => ((-1)%Z, r1)
                                           | _ => (1%Z, r)
                                           end in
                        let '(e, r2) := take_digits r1 in
                        if String.eqb e "" then None
                        else Some ((sign * digits_value e)%Z, r2)
                      else Some (0%Z, w3)
                  | "" => Some (0%Z, w3)
                  end;
    if String.eqb w4 "" then
      Some (mkNumber neg (digits_value (int +:+ frac))
                     (exp - Z.of_nat (String.length frac)))
    else None.

(** A run of characters between delimiters is a literal name or a number. *)
Definition word_token (w : string) : Completion Token :=
  if String.eqb w "true" then Normal TTrue
  else if String.eqb w "false" then Normal TFalse
  else if String.eqb w "null" then Normal TNull
  else match parse_number w with
       | Some n => Normal (TNumber n)
       | None => Throw invalid_JSON
       end.

Definition flush (word : string) (ts : list Token) : Completion (list Token) :=
  if String.eqb word "" then Normal ts
  else t ← word_token (reverse word); Normal (t :: ts).

(** The tokens of a text.  [word] holds, last character first, the
    characters read since the last delimiter. *)
Fixpoint lex (word : string) (s : string) {struct s} : Completion (list Token) :=
  match s with
  | "" => flush word []
  | String c rest =>
      if is_JSON_space c then ts ← lex "" rest; flush word ts
      else match punctuation c with
           | Some t => ts ← lex "" rest; flush word (t :: ts)
           | None =>
               if Ascii.eqb c "034"
               then ts ← lex_string [] rest; flush word ts
               else lex (String c word) rest
           end
  end
with lex_string (units : list Unit) (s : string) {struct s}
  : Completion (list Token) :=
  match s with
  | "" => Throw invalid_JSON
  | String c rest =>
      if Ascii.eqb c "034" then
        ts ← lex "" rest;
        Normal (TString (layout_units (code_units (rev units))) :: ts)
      else if Ascii.eqb c "\" then
        match rest with
        | String e rest' =>
            match simple_escape e with
            | Some b => lex_string (Byte b :: units) rest'
            | None =>
                if Ascii.eqb e "u" then
                  match rest' with
                  | String h1 (String h2 (String h3 (String h4 rest''))) =>
                      match hex4 h1 h2 h3 h4 with
                      | Some n => lex_string (CodeUnit n :: units) rest''
                      | None => Throw invalid_JSON
                      end
                  | _ => Throw invalid_JSON
                  end
                else Throw invalid_JSON
            end
        | "" => Throw invalid_JSON
        end
      else if (N_of_ascii c <? 32)%N then Throw invalid_JSON
      else lex_string (Byte c :: units) rest
  end.

(** An object keeps its properties in this order: array indices (the
    canonical numerals below 2^32 - 1) ascending, then the other names as
    they were first set. *)
Definition array_index (k : string) : option Z :=
  let '(d, r) := take_digits k in
  let n := digits_value d in
  if String.eqb r "" && String.eqb (digits_of n) k && (n <? 4294967295)%Z
  then Some n else None.

Fixpoint replace_member (k : string) (v : JSON) (ms : list (string * JSON))
  : option (list (string * JSON)) :=
  match ms with
  | [] => None
  | (k', v') :: rest =>
      if String.eqb k' k then Some ((k, v) :: rest)
      else cons (k', v') <$> replace_member k v rest
  end.

Fixpoint insert_index (n : Z) (k : string) (v : JSON) (ms : list (string * JSON))
  : list (string * JSON) :=
  match ms with
  | [] => [(k, v)]
  | (k', v') :: rest =>
      match array_index k' with
      | Some n' => if (n' <? n)%Z then (k', v') :: insert_index n k v rest
                   else (k, v) :: ms
      | None => (k, v) :: ms
      end
  end.

(** CreateDataProperty on an object under construction. *)
Definition set_member (k : string) (v : JSON) (ms : list (string * JSON))
  : list (string * JSON) :=
  match replace_member k v ms with
  | Some ms' => ms'
  | None =>
      match array_index k with
      | Some n => insert_index n k v ms
      | None => ms ++ [(k, v)]
      end
  end.

(** The parser reads the tokens once, keeping the arrays and objects it is
    inside of in a stack. *)
Inductive Frame : Type :=
  | InArray (items : list JSON)
  | InObject (members : list (string * JSON)) (key : string).

Inductive Expect : Type :=
  | Value (may_close : bool)   (* a value; or ] right after [ *)
  | Key (may_close : bool)     (* a member name; or } right after { *)
  | Colon
  | Separator                  (* a comma, or the closing bracket *)
  | End (v : JSON).

(** A value is complete: it is the result, or goes into the innermost
    array or object. *)
Definition complete (v : JSON) (stack : list Frame) : Expect * list Frame :=
  match stack with
  | [] => (End v, [])
  | InArray items :: outer => (Separator, InArray (items ++ [v]) :: outer)
  | InObject members key :: outer =>
      (Separator, InObject (set_member key v members) "" :: outer)
  end.

Definition step (t : Token) (expect : Expect) (stack : list Frame)
  : Completion (Expect * list Frame) :=
  match expect, t with
  | Value _, TNull => Normal (complete JNull stack)
  | Value _, TTrue => Normal (complete (JBool true) stack)
  | Value _, TFalse => Normal (complete (JBool false) stack)
  | Value _, TNumber n => Normal (complete (JNumber n) stack)
  | Value _, TString s => Normal (complete (JString s) stack)
  | Value _, TLBracket => Normal (Value true, InArray [] :: stack)
  | Value _, TLBrace => Normal (Key true, InObject [] "" :: stack)
  | Value true, TRBracket =>
      match stack with
      | InArray items :: outer => Normal (complete (JArray items) outer)
      | _ => Throw invalid_JSON
      end
  | Key _, TString k =>
      match stack with
      | InObject members _ :: outer => Normal (Colon, InObject members k :: outer)
      | _ => Throw invalid_JSON
      end
  | Key true, TRBrace =>
      match stack with
      | InObject members _ :: outer => Normal (complete (JObject members) outer)
      | _ => Throw invalid_JSON
      end
  | Colon, TColon => Normal (Value false, stack)
  | Separator, TComma =>
      match stack with
      | InArray _ :: _ => Normal (Value false, stack)
      | InObject _ _ :: _ => Normal (Key false, stack)
      | [] => Throw invalid_JSON
      end
  | Separator, TRBracket =>
      match stack with
      | InArray items :: outer => Normal (complete (JArray items) outer)
      | _ => Throw invalid_JSON
      end
  | Separator, TRBrace =>
      match stack with
      | InObject members _ :: outer => Normal (complete (JObject members) outer)
      | _ => Throw invalid_JSON
      end
  | _, _ => Throw invalid_JSON
  end.

Fixpoint run (ts : list Token) (expect : Expect) (stack : list Frame)
  : Completion JSON :=
  match ts with
  | [] =>
      match expect with
      | End v => Normal v
      | _ => Throw invalid_JSON
      end
  | t :: rest =>
      '(expect', stack') ← step t expect stack;
      run rest expect' stack'
  end.

(** JSON.parse (no reviver). *)
Definition JSON_parse (text : string) : Completion JSON :=
  ts ← lex "" text;
  run ts (Value false) [].

End JS.

(** ** A JavaScript object used as a map

    [conversationHistory] and [therapistHistory] are created as [{}]: each
    has its own properties (one per user that has spoken, holding that
    user's array of entries) and inherits those of [Object.prototype]. *)

Module Store.
Section Entries.
Context {E : Type}.

(** The names [Object.prototype] defines; each holds a function, but
    [__proto__], which reads as [Object.prototype] itself. *)
Definition Object_prototype : list string :=
  ["constructor"; "__defineGetter__"; "__defineSetter__"; "hasOwnProperty";
   "__lookupGetter__"; "__lookupSetter__"; "isPrototypeOf";
   "propertyIsEnumerable"; "toString"; "valueOf"; "__proto__";
   "toLocaleString"].

Definition inherited (k : string) : bool :=
  existsb (String.eqb k) Object_prototype.

(** What [store[k]] evaluates to. *)
Inductive Property : Type :=
  | Own (entries : list E)
  | Inherited
  | Undefined.

Definition get (store : gmap string (list E)) (k : string) : Property :=
  match store !! k with
  | Some entries => Own entries
  | None => if inherited k then Inherited else Undefined
  end.

(** Arrays, functions and objects are all truthy. *)
Definition truthy (p : Property) : bool :=
  match p with
  | Undefined => false
  | _ => true
  end.

(** [store[k] = []], where [store[k]] has just read as [undefined] (so
    that [k] is not [__proto__]). *)
Definition set (store : gmap string (list E)) (k : string) (entries : list E)
  : gmap string (list E) :=
  <[k := entries]> store.

(** [store[k].push(entry)]; [name] is how the source names the store. *)
Definition push (name : string) (store : gmap string (list E)) (k : string)
    (entry : E) : JS.Completion (gmap string (list E)) :=
  match get store k with
  | Own entries => JS.Normal (<[k := entries ++ [entry]]> store)
  | Inherited =>
      JS.Throw (JS.TypeError (name +:+ "[userId].push is not a function"))
  | Undefined =>
      JS.Throw (JS.TypeError
        "Cannot read properties of undefined (reading 'push')")
  end.

(** [delete store[k]] *)
Definition remove (store : gmap string (list E)) (k : string)
  : gmap string (list E) :=
  delete k store.

(** [Object.keys(store).forEach((key) => delete store[key])] *)
Definition clear (store : gmap string (list E)) : gmap string (list E) :=
  foldr (fun key store' => remove store' key) store
        (map fst (map_to_list store)).

End Entries.
Arguments Property E : clear implicits.
End Store.

(** ** The request handlers *)

Module Roleplay.
(** [{ role, message }]; [message] is [undefined] when the model's JSON
    has no [response]. *)
Record Entry : Type := { role : string; message : option JS.JSON }.
End Roleplay.

Module Therapist.
(** [{ role, content }] *)
Record Entry : Type := { role : string; content : option JS.JSON }.
End Therapist.

Module Agent.
Import JS.

(** The two stores of the process. *)
Record State : Type :=
  { conversationHistory : gmap string (list Roleplay.Entry);
    therapistHistory : gmap string (list Therapist.Entry) }.

Definition initial : State :=
  {| conversationHistory := ∅; therapistHistory := ∅ |}.

(** [await model.generateContent(prompt)] and [result.response.text()]:
    the text of the reply, or the exception one of them throws. *)
Definition Model : Type := string -> Completion string.

(** [res.status(s).json(b)]; [res.json(b)] is status 200. *)
Record Response : Type := { status : Z; body : list (string * JSON) }.

(** What a handler has done when it ends: it has sent a response, or an
    exception has left it and it has sent none. *)
Inductive Outcome : Type :=
  | Responded (r : Response)
  | Uncaught (e : Exception).

(** *** Effects

    A handler reads and writes the stores and calls the model; the writes
    and the calls made before an exception stay made. *)

Record World : Type := { stores : State; calls : list string }.

Definition Eff (A : Type) : Type := World -> Completion A * World.

#[global] Instance Eff_ret : MRet Eff := fun A a w => (Normal a, w).

#[global] Instance Eff_bind : MBind Eff := fun A B k c w =>
  match c w with
  | (Normal a, w') => k a w'
  | (Throw e, w') => (Throw e, w')
  end.

Definition lift {A : Type} (c : Completion A) : Eff A := fun w => (c, w).

Definition throw {A : Type} (e : Exception) : Eff A := lift (Throw e).

(** [try { block } catch (error) { handler }] *)
Definition try_catch {A : Type} (block : Eff A) (handler : Exception -> Eff A)
  : Eff A := fun w =>
  match block w with
  | (Normal a, w') => (Normal a, w')
  | (Throw e, w') => handler e w'
  end.

Definition generateContent (model : Model) (prompt : string) : Eff string :=
  fun w => (model prompt, {| stores := stores w; calls := calls w ++ [prompt] |}).

Definition read_roleplay : Eff (gmap string (list Roleplay.Entry)) :=
  fun w => (Normal (conversationHistory (stores w)), w).

Definition write_roleplay (h : gmap string (list Roleplay.Entry)) : Eff unit :=
  fun w => (Normal tt,
            {| stores := {| conversationHistory := h;
                            therapistHistory := therapistHistory (stores w) |};
               calls := calls w |}).

Definition read_therapist : Eff (gmap string (list Therapist.Entry)) :=
  fun w => (Normal (therapistHistory (stores w)), w).

Definition write_therapist (h : gmap string (list Therapist.Entry)) : Eff unit :=
  fun w => (Normal tt,
            {| stores := {| conversationHistory := conversationHistory (stores w);
                            therapistHistory := h |};
               calls := calls w |}).

Definition respond (status : Z) (body : list (string * JSON)) : Eff Response :=
  mret {| status := status; body := body |}.

(** The [catch] block all four model routes share. *)
Definition model_error (error : Exception) : Eff Response :=
  respond 500 [("error", JString "AI model error");
               ("details", JString (message_of error))].

(** *** Prompts *)

Definition correct_grammar_prompt (sentence : string) : string :=
  concat_all
    ["Rewrite the following text with correct grammar, formatting, and structure while maintaining its original meaning: ";
     quote; " "; sentence; " "; quote;
     " [Instruction for the response: just give me 4 options in json format for example for the sentence 'I want to follow up about the degree cerificate i was going'  the response format i need is  [
    {
        ";
     quote; "option"; quote; ": "; quote;
     "I am writing to follow up on my degree certificate."; quote;
     "
    },
    {
        "; quote; "option"; quote; ": "; quote;
     "I'd like to follow up regarding my degree certificate."; quote;
     "
    },
    {
        "; quote; "option"; quote; ": "; quote;
     "Following up on the status of my degree certificate."; quote;
     "
    },
    {
        "; quote; "option"; quote; ": "; quote;
     "I'm following up on the degree certificate I requested."; quote;
     "
    }
]]"].

Definition auto_complete_prompt (sentence : string) : string :=
  concat_all
    ["Complete the following sentence in a meaningful and grammatically correct way: (give 4 suggestions in array of json format which i can directly use in front end  ";
     quote;
     "example: if the sentence is:What are you trying to do , then the response should be formatted like [
    {
        ";
     quote; "suggestion"; quote; ": "; quote; ", exactly?"; quote;
     "
    },
    {
        "; quote; "suggestion"; quote; ": "; quote;
     " with this project?"; quote;
     "
    },
    {
        "; quote; "suggestion"; quote; ": "; quote;
     " to solve this problem?"; quote;
     "
    },
    {
        "; quote; "suggestion"; quote; ": "; quote;
     ", and how can I help?"; quote;
     "
    }
    instruction: do not attach the original sentence with the suggested one    ) ";
     quote; sentence; quote].

Definition roleplay_prompt (scenario history message : string) : string :=
  concat_all
    ["You are an AI roleplaying in the scenario: "; quote; scenario;
     quote;
     ". Keep the conversation engaging, and if needed, subtly correct grammar. Always return JSON like this:
    {
      ";
     quote; "response"; quote; ": "; quote;
     "AI's conversational reply"; quote;
     ",
      "; quote; "correction"; quote; ": "; quote;
     "User's message with correct grammar"; quote;
     "
    }

    Conversation so far:
    "; history;
     "

    User: "; quote; message; quote].

Definition therapist_prompt (historyStr message : string) : string :=
  concat_all
    ["You are a compassionate and supportive AI mental health assistant. Your role is to engage in empathetic, non-judgmental conversations with users who may be experiencing emotional challenges.

Always respond in a calm, thoughtful, and caring tone. Offer emotional support, active listening, and simple coping strategies. Never give medical advice or diagnoses.

If the user is in crisis or at risk of self-harm, encourage them to reach out to a mental health professional or emergency services immediately.

Use the ongoing conversation history below to understand the user’s emotional state and continue the conversation naturally.

Use short, friendly, and comforting replies. Ask gentle questions to help the user reflect.

---

Conversation so far:
";
     historyStr;
     "

User: "; message;
     "
AI:"].

(** *** Routes

    [req.body] is the object [express.json()] made of the request's JSON
    text, given by its members, each name once ([{}] when the request has
    no JSON). *)

Definition correct_grammar (model : Model) (req_body : list (string * JSON))
  : Eff Response :=
  let sentence := member "sentence" req_body in
  if negb (ToBoolean sentence) then
    respond 400 [("error", JString "Sentence is required")]
  else
    try_catch
      (sentence' ← lift (interpolate sentence);
       let prompt := correct_grammar_prompt sentence' in
       responseText ← generateContent model prompt;
       respond 200 [("correctedSentence", JString responseText)])
      model_error.

Definition auto_complete (model : Model) (req_body : list (string * JSON))
  : Eff Response :=
  let sentence := member "sentence" req_body in
  if negb (ToBoolean sentence) then
    respond 400 [("error", JString "Sentence is required")]
  else
    try_catch
      (sentence' ← lift (interpolate sentence);
       let prompt := auto_complete_prompt sentence' in
       responseText ← generateContent model prompt;
       respond 200 [("completedSentence", JString responseText)])
      model_error.

(** [/\{.*\}/s] *)
Definition json_pattern : list Atom := [Lit "{"; AnyStar; Lit "}"].

(** [JSON.stringify(conversationHistory[userId])].  Where it stands the
    property is an array: had it been anything else, the [push] before it
    would have thrown. *)
Definition stringify_history (p : Store.Property Roleplay.Entry) : string :=
  match p with
  | Store.Own entries =>
      "[" +:+ join ","
        (map (fun e => stringify_properties
                         [("role", Some (JString (Roleplay.role e)));
                          ("message", Roleplay.message e)]) entries)
      +:+ "]"
  | _ => "undefined"
  end.

(** [aiResponse.response].  The text parsed opens with a brace, so that
    [aiResponse] is an object and the access does not throw
    ([Properties.JSON_parse_brace]). *)
Definition response_of (aiResponse : JSON) : Completion (option JSON) :=
  match aiResponse with
  | JObject members => Normal (member "response" members)
  | JNull =>
      Throw (TypeError "Cannot read properties of null (reading 'response')")
  | _ => Normal None
  end.

Definition roleplay (model : Model) (req_body : list (string * JSON))
  : Eff Response :=
  let userId := member "userId" req_body in
  let scenario := member "scenario" req_body in
  let message := member "message" req_body in
  if negb (ToBoolean userId) || negb (ToBoolean scenario)
     || negb (ToBoolean message) then
    respond 400 [("error", JString "User ID, scenario, and message are required")]
  else
    key ← lift (ToPropertyKey userId);
    h ← read_roleplay;
    (if negb (Store.truthy (Store.get h key))
     then write_roleplay (Store.set h key [])
     else mret tt);;
    h ← read_roleplay;
    h' ← lift (Store.push "conversationHistory" h key
                 {| Roleplay.role := "user"; Roleplay.message := message |});
    write_roleplay h';;
    try_catch
      (scenario' ← lift (interpolate scenario);
       h ← read_roleplay;
       message' ← lift (interpolate message);
       let prompt :=
         roleplay_prompt scenario' (stringify_history (Store.get h key)) message' in
       responseText ← generateContent model prompt;
       (* Extract JSON part only *)
       match String_match json_pattern responseText with
       | None => throw (Error "Invalid JSON response from AI")
       | Some jsonMatch =>
           aiResponse ← lift (JSON_parse jsonMatch);
           (* Push AI's response to conversation history *)
           h ← read_roleplay;
           response ← lift (response_of aiResponse);
           h' ← lift (Store.push "conversationHistory" h key
                        {| Roleplay.role := "ai"; Roleplay.message := response |});
           write_roleplay h';;
           respond 200 [("roleplayResponse", aiResponse)]
       end)
      model_error.

Definition reset_history (req_body : list (string * JSON)) : Eff Response :=
  let userId := member "userId" req_body in
  if ToBoolean userId then
    key ← lift (ToPropertyKey userId);
    h ← read_roleplay;
    if Store.truthy (Store.get h key) then
      write_roleplay (Store.remove h key);;
      userId' ← lift (interpolate userId);
      respond 200 [("message", JString ("History reset for user: " +:+ userId'))]
    else
      respond 404 [("error", JString "User not found")]
  else
    (* Reset all users' history *)
    h ← read_roleplay;
    write_roleplay (Store.clear h);;
    respond 200 [("message", JString "All conversation histories reset")].

(** [therapistHistory[userId].map(...).join("\n")] *)
Definition history_lines (entries : list Therapist.Entry) : Completion string :=
  lines ← sequence
    (map (fun msg =>
            content ← interpolate (Therapist.content msg);
            Normal ((if String.eqb (Therapist.role msg) "user"
                     then "User" else "AI") +:+ ": " +:+ content))
         entries);
  Normal (join (String "010" "") lines).

Definition therapist_chat (model : Model) (req_body : list (string * JSON))
  : Eff Response :=
  let userId := member "userId" req_body in
  let message := member "message" req_body in
  if negb (ToBoolean userId) || negb (ToBoolean message) then
    respond 400 [("error", JString "User ID and message are required")]
  else
    key ← lift (ToPropertyKey userId);
    (* Initialize or update conversation history *)
    h ← read_therapist;
    (if negb (Store.truthy (Store.get h key))
     then write_therapist (Store.set h key [])
     else mret tt);;
    h ← read_therapist;
    h' ← lift (Store.push "therapistHistory" h key
                 {| Therapist.role := "user";
                    Therapist.content := message |});
    write_therapist h';;
    try_catch
      ((* Build conversation context string *)
       h ← read_therapist;
       historyStr ← lift (match Store.get h key with
                          | Store.Own entries => history_lines entries
                          | Store.Inherited =>
                              Throw (TypeError
                                "therapistHistory[userId].map is not a function")
                          | Store.Undefined =>
                              Throw (TypeError
                                "Cannot read properties of undefined (reading 'map')")
                          end);
       message' ← lift (interpolate message);
       let prompt := therapist_prompt historyStr message' in
       text ← generateContent model prompt;
       let aiResponse := trim text in
       h ← read_therapist;
       h' ← lift (Store.push "therapistHistory" h key
                    {| Therapist.role := "ai";
                       Therapist.content := Some (JString aiResponse) |});
       write_therapist h';;
       respond 200 [("therapistResponse", JString aiResponse)])
      model_error.

Definition therapist_reset (req_body : list (string * JSON)) : Eff Response :=
  let userId := member "userId" req_body in
  if ToBoolean userId then
    key ← lift (ToPropertyKey userId);
    h ← read_therapist;
    write_therapist (Store.remove h key);;
    userId' ← lift (interpolate userId);
    respond 200 [("message",
                  JString ("Therapist chat history reset for " +:+ userId'))]
  else
    h ← read_therapist;
    write_therapist (Store.clear h);;
    respond 200 [("message", JString "All therapist chat histories reset")].

(** *** The application *)

Inductive Route : Type :=
  | CorrectGrammar     (* POST /correct-grammar *)
  | AutoComplete       (* POST /auto-complete *)
  | RoleplayChat       (* POST /roleplay *)
  | ResetHistory       (* POST /reset-history *)
  | TherapistChat      (* POST /therapist-chat *)
  | TherapistReset.    (* POST /therapist-reset *)

Definition handler (route : Route) (model : Model)
    (req_body : list (string * JSON)) : Eff Response :=
  match route with
  | CorrectGrammar => correct_grammar model req_body
  | AutoComplete => auto_complete model req_body
  | RoleplayChat => roleplay model req_body
  | ResetHistory => reset_history req_body
  | TherapistChat => therapist_chat model req_body
  | TherapistReset => therapist_reset req_body
  end.

(** One request, from its arrival to the end of its handler. *)
Record Result : Type :=
  { outcome : Outcome; after : State; model_calls : list string }.

Definition handle (route : Route) (model : Model)
    (req_body : list (string * JSON)) (before : State) : Result :=
  let '(c, w) := handler route model req_body {| stores := before; calls := [] |} in
  {| outcome := match c with
                | Normal r => Responded r
                | Throw e => Uncaught e
                end;
     after := stores w;
     model_calls := calls w |}.

(** *** The process

    The requests of a run of the server, each handled to its end before
    the next. *)

Record Request : Type :=
  { request_route : Route;
    request_model : Model;
    request_body : list (string * JSON) }.

Definition serve (requests : list Request) (st : State) : State :=
  fold_left
    (fun st request =>
       after (handle (request_route request) (request_model request)
                (request_body request) st))
    requests st.

End Agent.

(** ** The vocabulary of the properties *)

Module Spec.
Import JS Agent.

(** *** The search for the JSON part of a reply *)

Fixpoint first_index (c : ascii) (s : string) : option nat :=
  match s with
  | "" => None
  | String a s' => if Ascii.eqb a c then Some 0 else S <$> first_index c s'
  end.

Fixpoint last_index (c : ascii) (s : string) : option nat :=
  match s with
  | "" => None
  | String a s' =>
      match last_index c s' with
      | Some j => Some (S j)
      | None => if Ascii.eqb a c then Some 0 else None
      end
  end.


(** *** Objects in the parser

    What the parser holds to while it reads a text that opens with a
    brace. *)

Definition is_object (v : JSON) : Prop := ∃ members, v = JObject members.

(** The outermost frame of the stack is an object's. *)
Definition in_object (stack : list Frame) : Prop :=
  ∃ members key, last stack = Some (InObject members key).

(** What holds between two tokens of a text that opens with a brace. *)
Definition object_run (p : Expect * list Frame) : Prop :=
  match p.1 with
  | End v => p.2 = [] /\ is_object v
  | _ => in_object p.2
  end.

(** *** The stores *)

(** No property of the store hides one of [Object.prototype]. *)
Definition own_names_only {E : Type} (store : gmap string (list E)) : Prop :=
  ∀ k, Store.inherited k = true -> store !! k = None.

(** *** Validation *)

(** The fields a route requires. *)
Definition required (route : Route) : list string :=
  match route with
  | CorrectGrammar | AutoComplete => ["sentence"]
  | RoleplayChat => ["userId"; "scenario"; "message"]
  | TherapistChat => ["userId"; "message"]
  | ResetHistory | TherapistReset => []
  end.

Definition validation_message (route : Route) : string :=
  match route with
  | CorrectGrammar | AutoComplete => "Sentence is required"
  | RoleplayChat => "User ID, scenario, and message are required"
  | TherapistChat => "User ID and message are required"
  | ResetHistory | TherapistReset => ""
  end.

(** The request is refused: status 400, the route's message, no call to
    the model, the stores as they were. *)
Definition rejected (route : Route) (st : State) : Result :=
  {| outcome := Responded
       {| status := 400;
          body := [("error", JString (validation_message route))] |};
     after := st;
     model_calls := [] |}.

(** The members of a body, one name apart. *)
Definition without (field : string) (members : list (string * JSON))
  : list (string * JSON) :=
  filter (fun kv => kv.1 ≠ field) members.

(** The response of the [catch] block to an exception. *)
Definition caught (e : Exception) : Outcome :=
  Responded {| status := 500;
               body := [("error", JString "AI model error");
                        ("details", JString (message_of e))] |}.

(** *** The reply of the model *)

(** The JSON part of a reply, or the exception of the call. *)
Definition json_part (reply : Completion string) : Completion (option string) :=
  match reply with
  | Normal text => Normal (String_match json_pattern text)
  | Throw e => Throw e
  end.

(** *** The shape of a history *)

(** The roles of a history, read from its start: [user] at any place, [ai]
    only right after a [user]. *)
Fixpoint turns (after_user : bool) (roles : list string) : bool :=
  match roles with
  | [] => true
  | r :: rest =>
      if String.eqb r "user" then turns true rest
      else if String.eqb r "ai" then after_user && turns false rest
      else false
  end.

(** A history has an entry, and its roles take turns. *)
Definition dialogue (roles : list string) : bool :=
  match roles with
  | [] => false
  | _ => turns false roles
  end.

Definition dialogues (st : State) : Prop :=
  (∀ user entries,
     conversationHistory st !! user = Some entries ->
     dialogue (Roleplay.role <$> entries) = true)
  /\ (∀ user entries,
        therapistHistory st !! user = Some entries ->
        dialogue (Therapist.role <$> entries) = true).

End Spec.

(** ** Properties *)

Module Properties.
Import JS Agent Spec.

(** *** Running a handler *)

Ltac unfold_handler :=
  unfold handle, handler, correct_grammar, auto_complete, roleplay,
    reset_history, therapist_chat, therapist_reset, model_error, respond,
    try_catch, generateContent, read_roleplay, write_roleplay,
    read_therapist, write_therapist, throw, lift,
    mbind, mret, Eff_bind, Eff_ret in *;
  cbn beta iota.

Ltac split_cases := repeat (case_match; simplify_eq/=).

Ltac store_cases :=
  unfold Store.push, Store.get, Store.set, Store.remove, Store.truthy in *;
  repeat first
    [ progress (rewrite lookup_insert_eq in * )
    | progress simplify_eq/=
    | case_match ].

(** Two results of one call are one result. *)
Ltac same_call :=
  repeat match goal with
         | H : ?call = Normal _, H' : ?call = _ |- _ =>
             rewrite H in H'; simplify_eq
         | H : ?call = Throw _, H' : ?call = _ |- _ =>
             rewrite H in H'; simplify_eq
         end.

(** After [<[key := entries ++ new]>], the history of [user] is what it
    was, with [new] at its end when [user] is [key]. *)
Ltac kept_or_other :=
  match goal with
  | |- ∃ more, <[?key := _]> _ !! ?user = Some (_ ++ more) =>
      destruct (decide (key = user)) as [->|];
      [ rewrite lookup_insert_eq; simplify_eq;
        rewrite <- ?(assoc_L (++)); by eexists
      | rewrite lookup_insert_ne by done; exists []; by rewrite app_nil_r ]
  end.

(** *** The stores *)

Lemma clear_empty {E : Type} (store : gmap string (list E)) :
  Store.clear store = ∅.
Proof.
  apply map_eq. intros k. rewrite lookup_empty. unfold Store.clear.
  destruct (store !! k) as [entries|] eqn:Hk.
  - assert (Hin : k ∈ map fst (map_to_list store)).
    { apply list_elem_of_fmap. exists (k, entries). split; [done|].
      by apply elem_of_map_to_list. }
    induction (map fst (map_to_list store)) as [|k' ks IH]; [by inversion Hin|].
    simpl. unfold Store.remove at 1.
    destruct (decide (k' = k)) as [->|Hne].
    + apply lookup_delete_eq.
    + rewrite lookup_delete_ne by done. apply IH.
      apply elem_of_cons in Hin as [->|Hin]; [done|exact Hin].
  - induction (map fst (map_to_list store)) as [|k' ks IH]; [done|].
    simpl. unfold Store.remove at 1.
    destruct (decide (k' = k)) as [->|Hne].
    + apply lookup_delete_eq.
    + by rewrite lookup_delete_ne.
Qed.

(** The stores start without a property that hides one of
    [Object.prototype], and no handler makes one: [store[k]] reads an
    inherited name as inherited for the life of the process. *)
Lemma handle_own_names_only route model req_body st :
  own_names_only (conversationHistory st) ->
  own_names_only (therapistHistory st) ->
  own_names_only (conversationHistory (after (handle route model req_body st)))
  /\ own_names_only (therapistHistory (after (handle route model req_body st))).
Proof.
  intros Hr Ht.
  destruct route; unfold_handler; split_cases; split; try done.
  all: rewrite ?clear_empty; try (intros k _; apply lookup_empty).
  all: store_cases; intros k Hk;
    try (specialize (Hr k Hk)); try (specialize (Ht k Hk));
    repeat match goal with
      | |- <[?a := _]> _ !! k = None =>
          rewrite lookup_insert_ne by (intros ->; congruence)
      | |- delete ?a _ !! k = None =>
          destruct (decide (a = k)) as [->|];
          [apply lookup_delete_eq|rewrite lookup_delete_ne by done]
      end; done.
Qed.

(** *** The search for the JSON part of a reply *)

Lemma substring_0_0 s : substring 0 0 s = "".
Proof. by destruct s. Qed.

Lemma star_last s :
  match_here [AnyStar; Lit "}"] s
  = (j ← last_index "}" s; Some (substring 0 (S j) s)).
Proof.
  induction s as [|a s IH]; [done|].
  change (match_here [AnyStar; Lit "}"] (String a s))
    with (match match_here [AnyStar; Lit "}"] s with
          | Some m => Some (String a m)
          | None => match_here [Lit "}"] (String a s)
          end).
  rewrite IH. cbn [last_index]. destruct (last_index "}" s) as [j|]; [done|].
  cbn. destruct (Ascii.eqb a "}"); cbn; [|done]. by rewrite substring_0_0.
Qed.

Lemma match_here_pattern a s :
  match_here json_pattern (String a s)
  = if Ascii.eqb a "{"
    then j ← last_index "}" s; Some (String a (substring 0 (S j) s))
    else None.
Proof.
  change (match_here json_pattern (String a s))
    with (if Ascii.eqb a "{"
          then String a <$> match_here [AnyStar; Lit "}"] s else None).
  rewrite star_last. destruct (Ascii.eqb a "{"); [|done].
  by destruct (last_index "}" s).
Qed.

Lemma no_brace_no_match s :
  last_index "}" s = None -> String_match json_pattern s = None.
Proof.
  induction s as [|a s IH]; [done|]. cbn [last_index String_match].
  destruct (last_index "}" s) eqn:Hs; [done|]. intros _.
  rewrite match_here_pattern, Hs. cbn. rewrite IH by done.
  by destruct (Ascii.eqb a "{").
Qed.


Lemma append_nil s : "" +:+ s = s.
Proof. done. Qed.

Lemma append_cons a s t : String a s +:+ t = String a (s +:+ t).
Proof. done. Qed.

Lemma last_index_Some c s j :
  last_index c s = Some j ->
  ∃ mid post, s = mid +:+ String c post /\ last_index c post = None
              /\ substring 0 (S j) s = mid +:+ String c "".
Proof.
  revert j. induction s as [|a s IH]; intros j; [done|]. cbn [last_index].
  destruct (last_index c s) as [j'|] eqn:Hs.
  - intros [= <-]. destruct (IH j' eq_refl) as (mid & post & -> & Hpost & Hsub).
    exists (String a mid), post. split_and!; [done..|]. cbn. by rewrite Hsub.
  - destruct (Ascii.eqb a c) eqn:Ha; [|done]. intros [= <-].
    apply Ascii.eqb_eq in Ha as ->. exists "", s. split_and!; [done..|].
    cbn. by rewrite substring_0_0.
Qed.

Lemma last_index_app c mid post :
  last_index c post = None ->
  last_index c (mid +:+ String c post) = Some (String.length mid).
Proof.
  intros Hpost. induction mid as [|a mid IH].
  - rewrite append_nil. cbn. by rewrite Hpost, Ascii.eqb_refl.
  - rewrite append_cons. cbn [last_index]. by rewrite IH.
Qed.


Lemma substring_prefix mid c rest :
  substring 0 (S (String.length mid)) (mid +:+ String c rest) = mid +:+ String c "".
Proof.
  induction mid as [|a mid IH].
  - rewrite !append_nil. cbn. by rewrite substring_0_0.
  - rewrite !append_cons. cbn. by rewrite IH.
Qed.

Lemma String_match_Some reply m :
  String_match json_pattern reply = Some m <->
  ∃ pre mid post,
    reply = pre +:+ String "{" (mid +:+ String "}" post)
    /\ first_index "{" pre = None /\ last_index "}" post = None
    /\ m = String "{" (mid +:+ String "}" "").
Proof.
  split.
  - revert m. induction reply as [|a s IH]; intros m; [done|].
    cbn [String_match]. rewrite match_here_pattern.
    destruct (Ascii.eqb a "{") eqn:Ha.
    + apply Ascii.eqb_eq in Ha as ->.
      destruct (last_index "}" s) as [j|] eqn:Hj; cbn.
      * intros [= <-].
        destruct (last_index_Some _ _ _ Hj) as (mid & post & -> & Hpost & ->).
        by exists "", mid, post.
      * by rewrite no_brace_no_match.
    + intros (pre & mid & post & -> & Hpre & Hpost & ->)%IH.
      exists (String a pre), mid, post. split_and!; [done| |done..].
      cbn. by rewrite Ha, Hpre.
  - intros (pre & mid & post & -> & Hpre & Hpost & ->).
    induction pre as [|a pre IH].
    + rewrite append_nil. cbn [String_match]. rewrite match_here_pattern.
      rewrite Ascii.eqb_refl, last_index_app by done. cbn.
      by rewrite substring_prefix.
    + rewrite append_cons. cbn [String_match]. rewrite match_here_pattern.
      cbn in Hpre. destruct (Ascii.eqb a "{"); [done|].
      apply IH. by destruct (first_index "{" pre).
Qed.


(** *** What [JSON.parse] makes of a text that opens with a brace *)

Lemma in_object_nil : ¬ in_object [].
Proof. by intros (? & ? & ?). Qed.

Lemma in_object_push f g stack : in_object (g :: stack) <-> in_object (f :: g :: stack).
Proof. done. Qed.

Lemma in_object_head members key members' key' stack :
  in_object (InObject members key :: stack) ->
  in_object (InObject members' key' :: stack).
Proof. destruct stack; [by eexists _, _|done]. Qed.

Lemma in_object_array items items' stack :
  in_object (InArray items :: stack) ->
  stack ≠ [] /\ in_object stack /\ in_object (InArray items' :: stack).
Proof. destruct stack; [by intros (? & ? & ?)|done]. Qed.

Lemma complete_object_run v stack :
  (stack = [] -> is_object v) -> (stack ≠ [] -> in_object stack) ->
  object_run (complete v stack).
Proof.
  intros Hv Hin. destruct stack as [|[items|members key] outer]; cbn.
  - by split; [|apply Hv].
  - by eapply in_object_array, Hin.
  - by eapply in_object_head, Hin.
Qed.

Lemma step_object_run t expect stack p :
  in_object stack -> step t expect stack = Normal p -> object_run p.
Proof.
  intros Hin Hstep.
  assert (Hvalue : ∀ v, object_run (complete v stack)).
  { intros v. apply complete_object_run; [|done].
    intros ->. by destruct in_object_nil. }
  assert (Hpush : ∀ f, in_object (f :: stack)).
  { intros f. destruct stack; [by destruct in_object_nil|done]. }
  destruct expect as [[]|[]| | |], t; cbn in Hstep; simplify_eq; try done;
    try apply Hvalue; try apply Hpush;
    destruct stack as [|[items|members key] outer]; simplify_eq; try done.
  all: try (apply complete_object_run;
            [ intros ->; by destruct (in_object_array _ [] _ Hin) || by eexists
            | intros ?; destruct outer; [done|]; by apply Hin ]).
  all: try by eapply in_object_head.
Qed.

Lemma run_object ts expect stack v :
  object_run (expect, stack) -> run ts expect stack = Normal v ->
  is_object v.
Proof.
  revert expect stack. induction ts as [|t ts IH]; intros expect stack Hinv Hrun.
  - destruct expect; simplify_eq/=. apply Hinv.
  - cbn in Hrun. destruct (step t expect stack) as [[expect' stack']|] eqn:Hstep;
      [|done]. cbn in Hrun. apply (IH expect' stack'); [|done].
    destruct expect;
      try (eapply step_object_run; [exact Hinv | exact Hstep]).
    by destruct t.
Qed.

Lemma JSON_parse_brace text v :
  JSON_parse (String "{" text) = Normal v -> is_object v.
Proof.
  unfold JSON_parse. cbn [lex is_JSON_space punctuation].
  destruct (lex "" text) as [ts|] eqn:Hlex; [|done]. cbn.
  apply run_object. by eexists _, _.
Qed.

(** *** Validation *)

Lemma falsy_rejected route field model req_body st :
  field ∈ required route ->
  ToBoolean (member field req_body) = false ->
  handle route model req_body st = rejected route st.
Proof.
  intros Hfield Hfalsy.
  destruct route; cbn in Hfield; set_unfold in Hfield; destruct_or?;
    subst; try done; unfold_handler; rewrite Hfalsy; cbn [negb orb];
    rewrite ?orb_true_r; try done.
  all: repeat (destruct (ToBoolean _); cbn [negb orb]; try done).
Qed.

(** The falsy values of JSON. *)
Lemma ToBoolean_false v :
  ToBoolean v = false <->
  v = None \/ v = Some JNull \/ v = Some (JBool false) \/ v = Some (JString "")
  \/ ∃ n, v = Some (JNumber n) /\ Number_is_zero n = true.
Proof.
  split.
  - destruct v as [[| [] | n | s | |]|]; cbn; try done; eauto 6.
    + destruct (Number_is_zero n) eqn:Hn; [eauto 8|done].
    + destruct (String.eqb s "") eqn:Hs; [|done].
      apply String.eqb_eq in Hs as ->. eauto 6.
  - intros [->|[->|[->|[->|(n & -> & Hn)]]]]; cbn; try done. by rewrite Hn.
Qed.

Lemma member_without field members : member field (without field members) = None.
Proof.
  induction members as [|[k v] members IH]; [done|].
  unfold without in *. rewrite filter_cons. cbn. case_decide as Hk; [|done].
  cbn. destruct (String.eqb k field) eqn:Hkf; [|done].
  by apply String.eqb_eq in Hkf.
Qed.

(** C9: a request that lacks a required field is answered 400 with the
    route's fixed message; the model is not called and no store changes.
    [/correct-grammar] and [/auto-complete] require [sentence];
    [/roleplay] requires [userId], [scenario] and [message];
    [/therapist-chat] requires [userId] and [message]. *)
Theorem missing_field_rejected route field model req_body st :
  field ∈ required route ->
  member field req_body = None ->
  handle route model req_body st = rejected route st
  /\ required CorrectGrammar = ["sentence"]
  /\ required AutoComplete = ["sentence"]
  /\ required RoleplayChat = ["userId"; "scenario"; "message"]
  /\ required TherapistChat = ["userId"; "message"].
Proof.
  intros Hfield Hmissing. split; [|done].
  apply (falsy_rejected _ field); [done|]. by rewrite Hmissing.
Qed.

Lemma missing_field_rejected_witness :
  "scenario" ∈ required RoleplayChat
  /\ member "scenario" [("userId", JString "u1"); ("message", JString "hello")]
     = None
  /\ handle RoleplayChat (fun _ => Normal "{}")
       [("userId", JString "u1"); ("message", JString "hello")] initial
     = rejected RoleplayChat initial.
Proof.
  assert (Hfield : "scenario" ∈ required RoleplayChat) by set_solver.
  split_and!; [done..|].
  by apply (missing_field_rejected RoleplayChat "scenario").
Defined.

(** C10: validation tests truthiness, not presence: a required field
    that is there but falsy ([null], [false], zero, the empty string) is
    refused as a missing one is, with the same response. *)
Theorem falsy_field_rejected route field model req_body st :
  field ∈ required route ->
  ToBoolean (member field req_body) = false ->
  handle route model req_body st = rejected route st
  /\ handle route model req_body st
     = handle route model (without field req_body) st
  /\ handle CorrectGrammar model [("sentence", JString "")] st
     = {| outcome := Responded
            {| status := 400;
               body := [("error", JString "Sentence is required")] |};
          after := st;
          model_calls := [] |}
  /\ (∀ v, ToBoolean v = false <->
           v = None \/ v = Some JNull \/ v = Some (JBool false)
           \/ v = Some (JString "")
           \/ ∃ n, v = Some (JNumber n) /\ Number_is_zero n = true).
Proof.
  intros Hfield Hfalsy. split_and!.
  - by apply (falsy_rejected _ field).
  - rewrite !(falsy_rejected _ field); try done.
    by rewrite member_without.
  - by apply (falsy_rejected CorrectGrammar "sentence"); [set_solver|].
  - apply ToBoolean_false.
Qed.

Lemma falsy_field_rejected_witness :
  "message" ∈ required TherapistChat
  /\ ToBoolean (member "message"
       [("userId", JString "u1");
        ("message", JNumber {| negative := false; coefficient := 0;
                               exponent10 := 0 |})]) = false
  /\ handle TherapistChat (fun _ => Normal "fine")
       [("userId", JString "u1");
        ("message", JNumber {| negative := false; coefficient := 0;
                               exponent10 := 0 |})]
       initial
     = rejected TherapistChat initial.
Proof.
  assert (Hfield : "message" ∈ required TherapistChat) by set_solver.
  split_and!; [done..|].
  by apply (falsy_field_rejected TherapistChat "message").
Defined.

(** *** Error responses *)

(** Requests answered step by step, as the source reads. *)

Example roleplay_first_exchange :
  handle RoleplayChat
    (fun _ => Normal (concat_all ["Sure! {"; quote; "response"; quote; ": ";
                                  quote; "Bonjour"; quote; ", "; quote;
                                  "correction"; quote; ": "; quote; "Hi there";
                                  quote; "} Enjoy."]))
    [("userId", JString "u1"); ("scenario", JString "cafe");
     ("message", JString "hi their")] initial
  = {| outcome := Responded
         {| status := 200;
            body := [("roleplayResponse",
                      JObject [("response", JString "Bonjour");
                               ("correction", JString "Hi there")])] |};
       after :=
         {| conversationHistory :=
              {["u1" := [{| Roleplay.role := "user";
                            Roleplay.message := Some (JString "hi their") |};
                         {| Roleplay.role := "ai";
                            Roleplay.message := Some (JString "Bonjour") |}]]};
            therapistHistory := ∅ |};
       model_calls :=
         [roleplay_prompt "cafe"
            (concat_all ["[{"; quote; "role"; quote; ":"; quote; "user"; quote;
                         ","; quote; "message"; quote; ":"; quote; "hi their";
                         quote; "}]"])
            "hi their"] |}.
Proof. by vm_compute. Qed.

(** A [userId] that names a property of [Object.prototype]: the store
    reads as a function there, [push] is not one, and the exception leaves
    [/roleplay] before its [try]; [/reset-history] finds the user. *)
Example roleplay_inherited_name :
  handle RoleplayChat (fun _ => Normal "{}")
    [("userId", JString "constructor"); ("scenario", JString "cafe");
     ("message", JString "hi")] initial
  = {| outcome := Uncaught
         (TypeError "conversationHistory[userId].push is not a function");
       after := initial;
       model_calls := [] |}.
Proof. by vm_compute. Qed.

Example reset_history_inherited_name :
  handle ResetHistory (fun _ => Normal "{}")
    [("userId", JString "constructor")] initial
  = {| outcome := Responded
         {| status := 200;
            body := [("message",
                      JString "History reset for user: constructor")] |};
       after := initial;
       model_calls := [] |}.
Proof. by vm_compute. Qed.

(** A number as [userId] is the user of its rendering. *)
Example therapist_chat_number_user :
  therapistHistory
    (after (handle TherapistChat (fun _ => Normal "  I hear you.  ")
              [("userId", JNumber {| negative := false; coefficient := 50;
                                     exponent10 := -1 |});
               ("message", JString "sad")] initial))
  = {["5" := [{| Therapist.role := "user";
                 Therapist.content := Some (JString "sad") |};
              {| Therapist.role := "ai";
                 Therapist.content := Some (JString "I hear you.") |}]]}.
Proof. by vm_compute. Qed.

(** C1, as the code has it: a response that is not a 200 has status 400,
    404 or 500 and an [error] field; it has a [details] field exactly when
    it is the 500 of a [catch] block.  The 400 and 404 bodies are
    [{error}] alone. *)
Theorem error_response_shape route model req_body st r :
  outcome (handle route model req_body st) = Responded r ->
  status r ≠ 200%Z ->
  (status r = 400 \/ status r = 404 \/ status r = 500)%Z
  /\ is_Some (member "error" (body r))
  /\ (is_Some (member "details" (body r)) <-> status r = 500%Z).
Proof.
  destruct route; unfold_handler; split_cases; intros; simplify_eq/=.
  all: split_and!; eauto; split; (by intros [? ?]) || done.
Qed.

Lemma error_response_shape_witness :
  outcome (handle ResetHistory (fun _ => Normal "") [("userId", JString "u1")]
             initial)
  = Responded {| status := 404; body := [("error", JString "User not found")] |}
  /\ (404 ≠ 200)%Z
  /\ is_Some (member "error" [("error", JString "User not found")])
  /\ (is_Some (member "details" [("error", JString "User not found")])
      <-> (404 = 500)%Z).
Proof.
  assert (Hrun : outcome (handle ResetHistory (fun _ => Normal "")
                            [("userId", JString "u1")] initial)
                 = Responded {| status := 404;
                                body := [("error", JString "User not found")] |})
    by reflexivity.
  assert (Hnot : (404 ≠ 200)%Z) by done.
  split_and!; [done..| |];
    apply (error_response_shape ResetHistory _ _ _ _ Hrun Hnot).
Defined.

(** C1 as stated fails: the 400 of [/correct-grammar] for a request
    without [sentence] has no [details] field. *)
Lemma error_without_details :
  outcome (handle CorrectGrammar (fun _ => Normal "") [] initial)
  = Responded {| status := 400;
                 body := [("error", JString "Sentence is required")] |}
  /\ member "details" [("error", JString "Sentence is required")] = None.
Proof. split; reflexivity. Qed.

(** *** Resets *)




(** *** The roleplay route *)

(** C3, as the code has it: the body of a 200 of [/roleplay] is
    [{roleplayResponse: v}], where [v] is the object [JSON.parse] made of
    the part of the reply between its first [{] and its last [}]; the
    members of [v] are those the model wrote, [response] and [correction]
    or not. *)
Theorem roleplay_success_body model req_body st r :
  outcome (handle RoleplayChat model req_body st) = Responded r ->
  status r = 200%Z ->
  ∃ prompt text jsonMatch members,
    model_calls (handle RoleplayChat model req_body st) = [prompt]
    /\ model prompt = Normal text
    /\ String_match json_pattern text = Some jsonMatch
    /\ JSON_parse jsonMatch = Normal (JObject members)
    /\ body r = [("roleplayResponse", JObject members)].
Proof.
  unfold_handler. split_cases; intros; simplify_eq/=.
  all: match goal with
       | Hm : String_match _ _ = Some _, Hp : JSON_parse _ = Normal _ |- _ =>
           pose proof Hm as Hm';
           apply String_match_Some in Hm' as (? & ? & ? & _ & _ & _ & ->);
           destruct (JSON_parse_brace _ _ Hp) as [members ->]
       end.
  all: by eexists _, _, _, _.
Qed.

Lemma roleplay_success_body_witness :
  outcome (handle RoleplayChat (fun _ => Normal "ok {} ok")
             [("userId", JString "u1"); ("scenario", JString "cafe");
              ("message", JString "hi")] initial)
  = Responded {| status := 200; body := [("roleplayResponse", JObject [])] |}
  /\ ∃ prompt text jsonMatch members,
       model_calls (handle RoleplayChat (fun _ => Normal "ok {} ok")
                      [("userId", JString "u1"); ("scenario", JString "cafe");
                       ("message", JString "hi")] initial) = [prompt]
       /\ (fun _ : string => Normal "ok {} ok") prompt = Normal text
       /\ String_match json_pattern text = Some jsonMatch
       /\ JSON_parse jsonMatch = Normal (JObject members)
       /\ [("roleplayResponse", JObject [])]
          = [("roleplayResponse", JObject members)].
Proof.
  split; [reflexivity|].
  exact (roleplay_success_body (fun _ => Normal "ok {} ok")
           [("userId", JString "u1"); ("scenario", JString "cafe");
            ("message", JString "hi")] initial
           {| status := 200; body := [("roleplayResponse", JObject [])] |}
           eq_refl eq_refl).
Defined.

(** C3 as stated fails: the model answers [{}], and the 200 carries an
    object with neither [response] nor [correction]. *)
Lemma roleplay_success_without_fields :
  outcome (handle RoleplayChat (fun _ => Normal "{}")
             [("userId", JString "u1"); ("scenario", JString "cafe");
              ("message", JString "hi")] initial)
  = Responded {| status := 200; body := [("roleplayResponse", JObject [])] |}
  /\ member "response" [] = None
  /\ member "correction" [] = None.
Proof. split_and!; reflexivity. Qed.

(** C4: when [/roleplay] has called the model and the call fails, or the
    reply has no part between braces, or that part is not JSON, the
    response is the 500 of the [catch] block with the message of the
    exception in [details]; the model has been called once. *)
Theorem roleplay_failure model req_body st prompt :
  prompt ∈ model_calls (handle RoleplayChat model req_body st) ->
  model_calls (handle RoleplayChat model req_body st) = [prompt]
  /\ (∀ e, model prompt = Throw e ->
           outcome (handle RoleplayChat model req_body st) = caught e)
  /\ (∀ text, model prompt = Normal text ->
              String_match json_pattern text = None ->
              outcome (handle RoleplayChat model req_body st)
              = caught (Error "Invalid JSON response from AI"))
  /\ (∀ text jsonMatch e,
        model prompt = Normal text ->
        String_match json_pattern text = Some jsonMatch ->
        JSON_parse jsonMatch = Throw e ->
        outcome (handle RoleplayChat model req_body st) = caught e).
Proof.
  unfold_handler. split_cases; intros Hcall; set_unfold in Hcall;
    destruct_or?; simplify_eq/=; try done.
  all: split_and!; [done|intros; unfold caught; first [done|congruence]..].
Qed.

Lemma roleplay_failure_witness :
  hd "" (model_calls
           (handle RoleplayChat (fun _ => Throw (Error "quota exceeded"))
              [("userId", JString "u1"); ("scenario", JString "cafe");
               ("message", JString "hi")] initial))
  ∈ model_calls
      (handle RoleplayChat (fun _ => Throw (Error "quota exceeded"))
         [("userId", JString "u1"); ("scenario", JString "cafe");
          ("message", JString "hi")] initial)
  /\ outcome
       (handle RoleplayChat (fun _ => Throw (Error "quota exceeded"))
          [("userId", JString "u1"); ("scenario", JString "cafe");
           ("message", JString "hi")] initial)
     = Responded {| status := 500;
                    body := [("error", JString "AI model error");
                             ("details", JString "quota exceeded")] |}.
Proof.
  assert (Hcall :
    hd "" (model_calls
             (handle RoleplayChat (fun _ => Throw (Error "quota exceeded"))
                [("userId", JString "u1"); ("scenario", JString "cafe");
                 ("message", JString "hi")] initial))
    ∈ model_calls
        (handle RoleplayChat (fun _ => Throw (Error "quota exceeded"))
           [("userId", JString "u1"); ("scenario", JString "cafe");
            ("message", JString "hi")] initial))
    by (vm_compute; constructor).
  split; [exact Hcall|].
  destruct (roleplay_failure _ _ _ _ Hcall) as (_ & Hthrow & _).
  exact (Hthrow _ eq_refl).
Defined.

(** *** The histories *)



(** C7: a [/roleplay] request answered 200 has put the user's entry and
    then the model's at the end of its user's history; so has a
    [/therapist-chat] request.  On every route but the reset of a store,
    each history of that store is still there when the handler ends, with
    its entries in their places and any new ones after them. *)
Theorem histories_append_only route model req_body st :
  (∀ r, outcome (handle RoleplayChat model req_body st) = Responded r ->
        status r = 200%Z ->
        ∃ key aiResponse,
          ToPropertyKey (member "userId" req_body) = Normal key
          /\ body r = [("roleplayResponse", JObject aiResponse)]
          /\ conversationHistory (after (handle RoleplayChat model req_body st))
             = <[key := default [] (conversationHistory st !! key)
                        ++ [{| Roleplay.role := "user";
                               Roleplay.message := member "message" req_body |};
                            {| Roleplay.role := "ai";
                               Roleplay.message := member "response" aiResponse |}]]>
                 (conversationHistory st))
  /\ (∀ r, outcome (handle TherapistChat model req_body st) = Responded r ->
           status r = 200%Z ->
           ∃ key aiResponse,
             ToPropertyKey (member "userId" req_body) = Normal key
             /\ body r = [("therapistResponse", JString aiResponse)]
             /\ therapistHistory (after (handle TherapistChat model req_body st))
                = <[key := default [] (therapistHistory st !! key)
                           ++ [{| Therapist.role := "user";
                                  Therapist.content := member "message" req_body |};
                               {| Therapist.role := "ai";
                                  Therapist.content := Some (JString aiResponse) |}]]>
                    (therapistHistory st))
  /\ (route ≠ ResetHistory ->
      ∀ user entries,
        conversationHistory st !! user = Some entries ->
        ∃ more,
          conversationHistory (after (handle route model req_body st)) !! user
          = Some (entries ++ more))
  /\ (route ≠ TherapistReset ->
      ∀ user entries,
        therapistHistory st !! user = Some entries ->
        ∃ more,
          therapistHistory (after (handle route model req_body st)) !! user
          = Some (entries ++ more)).
Proof.
  split_and!.
  - unfold_handler. split_cases; intros; simplify_eq/=.
    all: match goal with
         | Hm : String_match _ _ = Some _, Hp : JSON_parse _ = Normal _ |- _ =>
             apply String_match_Some in Hm as (? & ? & ? & _ & _ & _ & ->);
             destruct (JSON_parse_brace _ _ Hp) as [members ->]
         end.
    all: eexists _, _; split_and!; [done..|].
    all: store_cases; by rewrite ?insert_insert_eq, <- ?(assoc_L (++)).
  - unfold_handler. split_cases; intros; simplify_eq/=.
    all: eexists _, _; split_and!; [done..|].
    all: store_cases; by rewrite ?insert_insert_eq, <- ?(assoc_L (++)).
  - intros Hroute user entries Hentries.
    destruct route; try done; unfold_handler; split_cases;
      try (exists []; by rewrite app_nil_r).
    all: store_cases; try (exists []; by rewrite app_nil_r).
    all: rewrite ?insert_insert_eq; kept_or_other.
  - intros Hroute user entries Hentries.
    destruct route; try done; unfold_handler; split_cases;
      try (exists []; by rewrite app_nil_r).
    all: store_cases; try (exists []; by rewrite app_nil_r).
    all: rewrite ?insert_insert_eq; kept_or_other.
Qed.

Lemma histories_append_only_witness :
  conversationHistory
    (after (handle RoleplayChat
              (fun _ => Normal (concat_all ["{ "; quote; "response"; quote; " : ";
                                            quote; "Bonjour"; quote; " }"]))
              [("userId", JString "u1"); ("scenario", JString "cafe");
               ("message", JString "hi")]
              {| conversationHistory :=
                   {["u1" := [{| Roleplay.role := "user";
                                 Roleplay.message := Some (JString "first") |}]]};
                 therapistHistory := ∅ |}))
  !! "u1"
  = Some [{| Roleplay.role := "user"; Roleplay.message := Some (JString "first") |};
          {| Roleplay.role := "user"; Roleplay.message := Some (JString "hi") |};
          {| Roleplay.role := "ai"; Roleplay.message := Some (JString "Bonjour") |}]
  /\ ∃ more,
       conversationHistory
         (after (handle RoleplayChat
                   (fun _ => Normal (concat_all ["{ "; quote; "response"; quote; " : ";
                                            quote; "Bonjour"; quote; " }"]))
                   [("userId", JString "u1"); ("scenario", JString "cafe");
                    ("message", JString "hi")]
                   {| conversationHistory :=
                        {["u1" := [{| Roleplay.role := "user";
                                      Roleplay.message := Some (JString "first") |}]]};
                      therapistHistory := ∅ |}))
       !! "u1"
       = Some ([{| Roleplay.role := "user";
                   Roleplay.message := Some (JString "first") |}] ++ more).
Proof.
  split; [by vm_compute|].
  refine (proj1 (proj2 (proj2 (histories_append_only RoleplayChat _ _ _)))
            _ "u1" _ _); [done|by vm_compute].
Defined.



(** *** The JSON part of a reply *)



(** ** More of the handlers

    What the handlers do besides: the routes without a store, the statuses,
    the resets, the prompts, and the histories over a run of requests. *)

(** *** The routes without a store *)

(** X1: [/correct-grammar] and [/auto-complete] always send a response:
    no exception leaves them.  The response is a 200, a 400 or a 500, and
    the two stores are as they were. *)
Theorem stateless_routes model req_body st :
  (after (handle CorrectGrammar model req_body st) = st
   /\ ∃ r, outcome (handle CorrectGrammar model req_body st) = Responded r
           /\ (status r = 200 \/ status r = 400 \/ status r = 500)%Z)
  /\ (after (handle AutoComplete model req_body st) = st
      /\ ∃ r, outcome (handle AutoComplete model req_body st) = Responded r
              /\ (status r = 200 \/ status r = 400 \/ status r = 500)%Z).
Proof.
  split; unfold_handler; split_cases; destruct st; cbn; eauto 7.
Qed.

(** X2: for a [sentence] that is truthy and has a string,
    [/correct-grammar] and [/auto-complete] call the model once, with the
    prompt of the route around the sentence; they answer 200 with the text
    of the reply as it came (not trimmed, not parsed), or the 500 of the
    [catch] block when the call fails. *)
Theorem sentence_routes_answer model req_body st sentence :
  ToBoolean (member "sentence" req_body) = true ->
  interpolate (member "sentence" req_body) = Normal sentence ->
  handle CorrectGrammar model req_body st
  = {| outcome :=
         match model (correct_grammar_prompt sentence) with
         | Normal responseText =>
             Responded {| status := 200;
                          body := [("correctedSentence", JString responseText)] |}
         | Throw error => caught error
         end;
       after := st;
       model_calls := [correct_grammar_prompt sentence] |}
  /\ handle AutoComplete model req_body st
     = {| outcome :=
            match model (auto_complete_prompt sentence) with
            | Normal responseText =>
                Responded {| status := 200;
                             body := [("completedSentence", JString responseText)] |}
            | Throw error => caught error
            end;
          after := st;
          model_calls := [auto_complete_prompt sentence] |}.
Proof.
  intros Htruthy Hsentence.
  split; unfold_handler; rewrite Htruthy, Hsentence; cbn;
    by destruct (model _), st.
Qed.

Lemma sentence_routes_answer_witness :
  ToBoolean (member "sentence" [("sentence", JString "me go home")]) = true
  /\ interpolate (member "sentence" [("sentence", JString "me go home")])
     = Normal "me go home"
  /\ outcome (handle CorrectGrammar (fun _ => Normal " [options] ")
                [("sentence", JString "me go home")] initial)
     = Responded {| status := 200;
                    body := [("correctedSentence", JString " [options] ")] |}.
Proof.
  split_and!; [reflexivity..|].
  by rewrite (proj1 (sentence_routes_answer (fun _ => Normal " [options] ")
                       [("sentence", JString "me go home")] initial
                       "me go home" eq_refl eq_refl)).
Defined.

(** *** The statuses *)

(** X3: a 400 is the answer to a falsy required field and to nothing
    else. *)
Theorem bad_request_only_when_falsy route model req_body st r :
  outcome (handle route model req_body st) = Responded r ->
  status r = 400%Z ->
  ∃ field,
    field ∈ required route /\ ToBoolean (member field req_body) = false.
Proof.
  destruct route; unfold_handler; split_cases; intros; simplify_eq/=.
  all: repeat match goal with
       | H : _ || _ = true |- _ => apply orb_true_iff in H as [H|H]
       | H : negb _ = true |- _ => apply negb_true_iff in H
       end.
  all: eexists; split; [|eassumption]; set_solver.
Qed.

Lemma bad_request_only_when_falsy_witness :
  outcome (handle TherapistChat (fun _ => Normal "") [("userId", JString "u1")]
             initial)
  = Responded {| status := 400;
                 body := [("error", JString "User ID and message are required")] |}
  /\ ∃ field,
       field ∈ required TherapistChat
       /\ ToBoolean (member field [("userId", JString "u1")]) = false.
Proof.
  split; [reflexivity|].
  exact (bad_request_only_when_falsy TherapistChat (fun _ => Normal "")
           [("userId", JString "u1")] initial
           {| status := 400;
              body := [("error", JString "User ID and message are required")] |}
           eq_refl eq_refl).
Defined.

(** X4: a 404 comes from [/reset-history] alone, for a truthy [userId]
    whose key names no property of the roleplay store, own or inherited;
    the request has changed no store and called no model. *)
Theorem not_found_only_on_reset_history route model req_body st r :
  outcome (handle route model req_body st) = Responded r ->
  status r = 404%Z ->
  route = ResetHistory
  /\ ToBoolean (member "userId" req_body) = true
  /\ (∃ key,
        ToPropertyKey (member "userId" req_body) = Normal key
        /\ conversationHistory st !! key = None
        /\ Store.inherited key = false)
  /\ after (handle route model req_body st) = st
  /\ model_calls (handle route model req_body st) = [].
Proof.
  destruct route; unfold_handler; split_cases; intros; simplify_eq/=.
  destruct st. split_and!; try done. eexists; split; [done|].
  store_cases. done.
Qed.

Lemma not_found_only_on_reset_history_witness :
  outcome (handle ResetHistory (fun _ => Normal "") [("userId", JString "u1")]
             initial)
  = Responded {| status := 404; body := [("error", JString "User not found")] |}
  /\ ResetHistory = ResetHistory
  /\ after (handle ResetHistory (fun _ => Normal "") [("userId", JString "u1")]
              initial) = initial.
Proof.
  split; [reflexivity|].
  destruct (not_found_only_on_reset_history ResetHistory (fun _ => Normal "")
              [("userId", JString "u1")] initial
              {| status := 404; body := [("error", JString "User not found")] |}
              eq_refl eq_refl) as (Hroute & _ & _ & Hafter & _).
  by split.
Defined.

(** X5: no route calls the model twice for a request, the reset routes
    never call it, and a request for which it was called is answered 200
    or 500. *)
Theorem model_called_at_most_once route model req_body st :
  length (model_calls (handle route model req_body st)) <= 1
  /\ (route = ResetHistory \/ route = TherapistReset ->
      model_calls (handle route model req_body st) = [])
  /\ (model_calls (handle route model req_body st) ≠ [] ->
      ∃ r, outcome (handle route model req_body st) = Responded r
           /\ (status r = 200 \/ status r = 500)%Z).
Proof.
  destruct route; unfold_handler; split_cases.
  all: split_and!; cbn; try lia; try done; try (by intros [|]).
  all: intros _; eexists; split; [done|]; cbn; auto.
Qed.

(** *** Resets *)

(** X6: [/reset-history] for a user who has a history answers 200, names
    the user in its message and deletes that history alone; asked again, it
    answers 404. *)
Theorem reset_of_known_user model req_body st key entries :
  ToBoolean (member "userId" req_body) = true ->
  ToPropertyKey (member "userId" req_body) = Normal key ->
  conversationHistory st !! key = Some entries ->
  handle ResetHistory model req_body st
  = {| outcome := Responded
         {| status := 200;
            body := [("message", JString ("History reset for user: " +:+ key))] |};
       after := {| conversationHistory := delete key (conversationHistory st);
                   therapistHistory := therapistHistory st |};
       model_calls := [] |}
  /\ (Store.inherited key = false ->
      outcome (handle ResetHistory model req_body
                 (after (handle ResetHistory model req_body st)))
      = Responded {| status := 404;
                     body := [("error", JString "User not found")] |}).
Proof.
  intros Htruthy Hkey Hentries.
  assert (Hfirst : handle ResetHistory model req_body st
    = {| outcome := Responded
           {| status := 200;
              body := [("message", JString ("History reset for user: " +:+ key))] |};
         after := {| conversationHistory := delete key (conversationHistory st);
                     therapistHistory := therapistHistory st |};
         model_calls := [] |}).
  { unfold_handler. rewrite Htruthy, Hkey. cbn.
    unfold Store.get. rewrite Hentries. cbn.
    unfold ToPropertyKey in Hkey. by rewrite Hkey. }
  split; [done|]. intros Hown. rewrite Hfirst. cbn [after].
  unfold_handler. rewrite Htruthy, Hkey. cbn.
  unfold Store.get. by rewrite lookup_delete_eq, Hown.
Qed.

Lemma reset_of_known_user_witness :
  ToBoolean (member "userId" [("userId", JString "u1")]) = true
  /\ ToPropertyKey (member "userId" [("userId", JString "u1")]) = Normal "u1"
  /\ ({["u1" := []]} : gmap string (list Roleplay.Entry)) !! "u1" = Some []
  /\ after (handle ResetHistory (fun _ => Normal "") [("userId", JString "u1")]
              {| conversationHistory := {["u1" := []]}; therapistHistory := ∅ |})
     = {| conversationHistory := delete "u1" {["u1" := []]};
          therapistHistory := ∅ |}.
Proof.
  assert (Hentries :
    ({["u1" := []]} : gmap string (list Roleplay.Entry)) !! "u1" = Some [])
    by apply lookup_singleton_eq.
  split_and!; [reflexivity..|exact Hentries|].
  by rewrite (proj1 (reset_of_known_user (fun _ => Normal "")
                       [("userId", JString "u1")]
                       {| conversationHistory := {["u1" := []]};
                          therapistHistory := ∅ |}
                       "u1" [] eq_refl eq_refl Hentries)).
Defined.

(** X7: without a truthy [userId], [/reset-history] empties the roleplay
    store and [/therapist-reset] the therapist store, whatever they held;
    the other store is as it was. *)
Theorem reset_of_all_users model req_body st :
  ToBoolean (member "userId" req_body) = false ->
  handle ResetHistory model req_body st
  = {| outcome := Responded
         {| status := 200;
            body := [("message", JString "All conversation histories reset")] |};
       after := {| conversationHistory := ∅;
                   therapistHistory := therapistHistory st |};
       model_calls := [] |}
  /\ handle TherapistReset model req_body st
     = {| outcome := Responded
            {| status := 200;
               body := [("message",
                         JString "All therapist chat histories reset")] |};
          after := {| conversationHistory := conversationHistory st;
                      therapistHistory := ∅ |};
          model_calls := [] |}.
Proof.
  intros Hfalsy. split; unfold_handler; rewrite Hfalsy; cbn;
    by rewrite clear_empty.
Qed.

Lemma reset_of_all_users_witness :
  ToBoolean (member "userId" []) = false
  /\ conversationHistory
       (after (handle ResetHistory (fun _ => Normal "") []
                 {| conversationHistory := {["u1" := []; "u2" := []]};
                    therapistHistory := ∅ |}))
     = ∅.
Proof.
  split; [reflexivity|].
  by rewrite (proj1 (reset_of_all_users (fun _ => Normal "") []
                       {| conversationHistory := {["u1" := []; "u2" := []]};
                          therapistHistory := ∅ |} eq_refl)).
Defined.

(** X8: [/therapist-reset] is idempotent: the second of two equal
    requests answers as the first did and leaves the stores as the first
    left them. *)
Theorem therapist_reset_idempotent model req_body st :
  handle TherapistReset model req_body
    (after (handle TherapistReset model req_body st))
  = handle TherapistReset model req_body st.
Proof.
  unfold_handler. split_cases; cbn in *; simplify_eq.
  all: unfold Store.remove; rewrite ?delete_delete_eq, ?clear_empty; try done.
Qed.

(** *** A name of [Object.prototype] as user *)

(** X11: for a [userId] whose key is a name of [Object.prototype] and
    that has no history, [/roleplay] and [/therapist-chat] throw a
    TypeError before their [try] (the store reads as a function there, and
    [push] is not one): no response, no call, no change; [/reset-history]
    answers 200 as for a known user and changes nothing. *)
Theorem inherited_name_as_user model req_body st key :
  ToBoolean (member "userId" req_body) = true ->
  ToPropertyKey (member "userId" req_body) = Normal key ->
  Store.inherited key = true ->
  (ToBoolean (member "scenario" req_body) = true ->
   ToBoolean (member "message" req_body) = true ->
   conversationHistory st !! key = None ->
   handle RoleplayChat model req_body st
   = {| outcome := Uncaught
          (TypeError "conversationHistory[userId].push is not a function");
        after := st;
        model_calls := [] |})
  /\ (ToBoolean (member "message" req_body) = true ->
      therapistHistory st !! key = None ->
      handle TherapistChat model req_body st
      = {| outcome := Uncaught
             (TypeError "therapistHistory[userId].push is not a function");
           after := st;
           model_calls := [] |})
  /\ (conversationHistory st !! key = None ->
      handle ResetHistory model req_body st
      = {| outcome := Responded
             {| status := 200;
                body := [("message",
                          JString ("History reset for user: " +:+ key))] |};
           after := st;
           model_calls := [] |}).
Proof.
  intros Htruthy Hkey Hinherited. split_and!.
  - intros Hscenario Hmessage Hnone. unfold_handler.
    rewrite Htruthy, Hscenario, Hmessage, Hkey. cbn.
    unfold Store.push, Store.get. rewrite !Hnone, !Hinherited. cbn.
    rewrite ?Hnone, ?Hinherited. by destruct st.
  - intros Hmessage Hnone. unfold_handler.
    rewrite Htruthy, Hmessage, Hkey. cbn.
    unfold Store.push, Store.get. rewrite !Hnone, !Hinherited. cbn.
    rewrite ?Hnone, ?Hinherited. by destruct st.
  - intros Hnone. unfold_handler. rewrite Htruthy, Hkey. cbn.
    unfold Store.get. rewrite Hnone, Hinherited. cbn.
    unfold ToPropertyKey in Hkey. rewrite Hkey. cbn.
    unfold Store.remove. rewrite delete_id by done. by destruct st.
Qed.

Lemma inherited_name_as_user_witness :
  ToBoolean (member "userId" [("userId", JString "toString");
                              ("message", JString "hello")]) = true
  /\ ToPropertyKey (member "userId" [("userId", JString "toString");
                                     ("message", JString "hello")])
     = Normal "toString"
  /\ Store.inherited "toString" = true
  /\ handle TherapistChat (fun _ => Normal "hi")
       [("userId", JString "toString"); ("message", JString "hello")] initial
     = {| outcome := Uncaught
            (TypeError "therapistHistory[userId].push is not a function");
          after := initial;
          model_calls := [] |}.
Proof.
  split_and!; [reflexivity..|].
  by apply (inherited_name_as_user (fun _ => Normal "hi")
              [("userId", JString "toString"); ("message", JString "hello")]
              initial "toString" eq_refl eq_refl eq_refl).
Defined.

(** X12: when an exception leaves a handler, the stores are as they were
    and the model has not been called; it is not [/correct-grammar] nor
    [/auto-complete]; the [userId] is truthy, and either it has no string
    (the exception is the one of its conversion) or its key is a name of
    [Object.prototype] and the route is a chat. *)
Theorem uncaught_changes_nothing route model req_body st e :
  outcome (handle route model req_body st) = Uncaught e ->
  after (handle route model req_body st) = st
  /\ model_calls (handle route model req_body st) = []
  /\ route ≠ CorrectGrammar /\ route ≠ AutoComplete
  /\ ToBoolean (member "userId" req_body) = true
  /\ (ToPropertyKey (member "userId" req_body) = Throw e
      \/ ∃ key,
           ToPropertyKey (member "userId" req_body) = Normal key
           /\ Store.inherited key = true
           /\ (route = RoleplayChat \/ route = TherapistChat)).
Proof.
  destruct route; unfold_handler; split_cases; intros; simplify_eq/=.
  all: repeat match goal with
       | H : _ || _ = false |- _ => apply orb_false_iff in H as [? ?]
       | H : negb _ = false |- _ => apply negb_false_iff in H
       end.
  all: unfold ToPropertyKey in *; same_call.
  all: destruct st; split_and!; try done; eauto.
  all: store_cases; right; eexists; split_and!; eauto.
Qed.

Lemma uncaught_changes_nothing_witness :
  outcome (handle ResetHistory (fun _ => Normal "")
             [("userId", JObject [("toString", JNull)])] initial)
  = Uncaught (TypeError "Cannot convert object to primitive value")
  /\ after (handle ResetHistory (fun _ => Normal "")
              [("userId", JObject [("toString", JNull)])] initial)
     = initial.
Proof.
  split; [reflexivity|].
  by apply (uncaught_changes_nothing ResetHistory (fun _ => Normal "")
              [("userId", JObject [("toString", JNull)])] initial
              (TypeError "Cannot convert object to primitive value")).
Defined.

(** *** Chat, then reset *)

(** X9: [/reset-history] after a [/roleplay] request of the same body
    that got past validation and was answered (200 or 500) finds the user:
    it answers 200, and the roleplay store is the one before the chat
    without that user. *)
Theorem reset_undoes_roleplay model model' req_body st r :
  outcome (handle RoleplayChat model req_body st) = Responded r ->
  status r ≠ 400%Z ->
  ∃ key,
    ToPropertyKey (member "userId" req_body) = Normal key
    /\ handle ResetHistory model' req_body
         (after (handle RoleplayChat model req_body st))
       = {| outcome := Responded
              {| status := 200;
                 body := [("message",
                           JString ("History reset for user: " +:+ key))] |};
            after := {| conversationHistory := delete key (conversationHistory st);
                        therapistHistory := therapistHistory st |};
            model_calls := [] |}.
Proof.
  intros Hout Hstatus.
  assert (Hchat : ∃ key entries,
    ToBoolean (member "userId" req_body) = true
    /\ ToPropertyKey (member "userId" req_body) = Normal key
    /\ after (handle RoleplayChat model req_body st)
       = {| conversationHistory := <[key := entries]> (conversationHistory st);
            therapistHistory := therapistHistory st |}).
  { revert Hout Hstatus. unfold_handler. split_cases; intros; simplify_eq/=.
    all: repeat match goal with
         | H : _ || _ = false |- _ => apply orb_false_iff in H as [? ?]
         | H : negb _ = false |- _ => apply negb_false_iff in H
         end.
    all: store_cases; rewrite ?insert_insert_eq.
    all: by eexists _, _. }
  destruct Hchat as (key & entries & Htruthy & Hkey & ->).
  exists key. split; [done|].
  unfold_handler. rewrite Htruthy, Hkey. cbn.
  unfold Store.get. rewrite lookup_insert_eq. cbn.
  unfold ToPropertyKey in Hkey. rewrite Hkey. cbn.
  unfold Store.remove. by rewrite delete_insert_eq.
Qed.

Lemma reset_undoes_roleplay_witness :
  outcome (handle RoleplayChat (fun _ => Normal "no JSON")
             [("userId", JString "u1"); ("scenario", JString "cafe");
              ("message", JString "hi")] initial)
  = caught (Error "Invalid JSON response from AI")
  /\ ∃ key,
       ToPropertyKey (Some (JString "u1")) = Normal key
       /\ after (handle ResetHistory (fun _ => Normal "")
                   [("userId", JString "u1"); ("scenario", JString "cafe");
                    ("message", JString "hi")]
                   (after (handle RoleplayChat (fun _ => Normal "no JSON")
                             [("userId", JString "u1");
                              ("scenario", JString "cafe");
                              ("message", JString "hi")] initial)))
          = {| conversationHistory := delete key ∅; therapistHistory := ∅ |}.
Proof.
  split; [reflexivity|].
  assert (Hstatus : (500 ≠ 400)%Z) by done.
  destruct (reset_undoes_roleplay (fun _ => Normal "no JSON") (fun _ => Normal "")
              [("userId", JString "u1"); ("scenario", JString "cafe");
               ("message", JString "hi")] initial
              {| status := 500;
                 body := [("error", JString "AI model error");
                          ("details", JString "Invalid JSON response from AI")] |}
              eq_refl Hstatus) as (key & Hkey & Hreset).
  exists key. split; [exact Hkey|]. by rewrite Hreset.
Defined.

(** *** What the model is asked *)

(** X10: the prompt of a chat is built after the user's entry is pushed:
    [/roleplay] sends the scenario, the JSON of the user's history with the
    new message as its last entry, and the message again; [/therapist-chat]
    sends the lines of the history, the new message among them, and the
    message again. *)
Theorem prompt_carries_history model req_body st prompt :
  (model_calls (handle RoleplayChat model req_body st) = [prompt] ->
   ∃ key scenario message,
     ToPropertyKey (member "userId" req_body) = Normal key
     /\ interpolate (member "scenario" req_body) = Normal scenario
     /\ interpolate (member "message" req_body) = Normal message
     /\ prompt
        = roleplay_prompt scenario
            (stringify_history
               (Store.Own
                  (default [] (conversationHistory st !! key)
                   ++ [{| Roleplay.role := "user";
                          Roleplay.message := member "message" req_body |}])))
            message)
  /\ (model_calls (handle TherapistChat model req_body st) = [prompt] ->
      ∃ key historyStr message,
        ToPropertyKey (member "userId" req_body) = Normal key
        /\ history_lines
             (default [] (therapistHistory st !! key)
              ++ [{| Therapist.role := "user";
                     Therapist.content := member "message" req_body |}])
           = Normal historyStr
        /\ interpolate (member "message" req_body) = Normal message
        /\ prompt = therapist_prompt historyStr message).
Proof.
  split; unfold_handler; split_cases; intros; simplify_eq/=.
  all: store_cases; rewrite ?insert_insert_eq.
  all: eexists _, _, _; (split; [done|]).
  all: repeat match goal with
       | H : _ !! _ = _ |- _ => rewrite H; clear H
       end.
  all: split_and!; cbn; eauto.
Qed.

Lemma prompt_carries_history_witness :
  ∃ key scenario message,
    ToPropertyKey (Some (JString "u1")) = Normal key
    /\ interpolate (Some (JString "cafe")) = Normal scenario
    /\ interpolate (Some (JString "hi")) = Normal message
    /\ hd "" (model_calls
                (handle RoleplayChat (fun _ => Normal "{}")
                   [("userId", JString "u1"); ("scenario", JString "cafe");
                    ("message", JString "hi")] initial))
       = roleplay_prompt scenario
           (stringify_history
              (Store.Own
                 (default [] (conversationHistory initial !! key)
                  ++ [{| Roleplay.role := "user";
                         Roleplay.message := Some (JString "hi") |}])))
           message.
Proof.
  exact (proj1 (prompt_carries_history (fun _ => Normal "{}")
                  [("userId", JString "u1"); ("scenario", JString "cafe");
                   ("message", JString "hi")] initial _) eq_refl).
Defined.

(** *** The therapist route *)

(** X13: when [/therapist-chat] has called the model, it has called it
    once; whatever text the model replies, the answer is 200 with that text
    trimmed, and a failing call gives the 500 of the [catch] block. *)
Theorem therapist_chat_answer model req_body st prompt :
  prompt ∈ model_calls (handle TherapistChat model req_body st) ->
  model_calls (handle TherapistChat model req_body st) = [prompt]
  /\ (∀ text, model prompt = Normal text ->
        outcome (handle TherapistChat model req_body st)
        = Responded {| status := 200;
                       body := [("therapistResponse", JString (trim text))] |})
  /\ (∀ e, model prompt = Throw e ->
        outcome (handle TherapistChat model req_body st) = caught e).
Proof.
  unfold_handler. split_cases; intros Hcall; set_unfold in Hcall;
    destruct_or?; simplify_eq/=; try done.
  all: store_cases.
  all: split_and!; [done|intros; unfold caught; first [done|congruence]..].
Qed.

Lemma therapist_chat_answer_witness :
  hd "" (model_calls
           (handle TherapistChat (fun _ => Normal "  Take a breath.  ")
              [("userId", JString "u1"); ("message", JString "sad")] initial))
  ∈ model_calls
      (handle TherapistChat (fun _ => Normal "  Take a breath.  ")
         [("userId", JString "u1"); ("message", JString "sad")] initial)
  /\ outcome
       (handle TherapistChat (fun _ => Normal "  Take a breath.  ")
          [("userId", JString "u1"); ("message", JString "sad")] initial)
     = Responded {| status := 200;
                    body := [("therapistResponse",
                              JString (trim "  Take a breath.  "))] |}.
Proof.
  assert (Hcall :
    hd "" (model_calls
             (handle TherapistChat (fun _ => Normal "  Take a breath.  ")
                [("userId", JString "u1"); ("message", JString "sad")] initial))
    ∈ model_calls
        (handle TherapistChat (fun _ => Normal "  Take a breath.  ")
           [("userId", JString "u1"); ("message", JString "sad")] initial))
    by (vm_compute; constructor).
  split; [exact Hcall|].
  destruct (therapist_chat_answer _ _ _ _ Hcall) as (_ & Hreply & _).
  exact (Hreply _ eq_refl).
Defined.

(** *** Who the user is *)

(** X14: a handler reads [sentence], [scenario], [message] and [userId]
    and nothing else of the body, and of [userId] its truthiness and its
    property key: the number 5 and the string "5" are one user. *)
Theorem user_is_its_property_key route model body1 body2 st :
  member "sentence" body1 = member "sentence" body2 ->
  member "scenario" body1 = member "scenario" body2 ->
  member "message" body1 = member "message" body2 ->
  ToBoolean (member "userId" body1) = ToBoolean (member "userId" body2) ->
  ToPropertyKey (member "userId" body1) = ToPropertyKey (member "userId" body2) ->
  handle route model body1 st = handle route model body2 st.
Proof.
  intros Hsentence Hscenario Hmessage Htruthy Hkey.
  destruct route; unfold_handler; unfold ToPropertyKey in *;
    by rewrite ?Hsentence, ?Hscenario, ?Hmessage, ?Htruthy, ?Hkey.
Qed.

Lemma user_is_its_property_key_witness :
  handle TherapistChat (fun _ => Normal "I see.")
    [("userId", JNumber {| negative := false; coefficient := 50;
                           exponent10 := -1 |});
     ("message", JString "sad")] initial
  = handle TherapistChat (fun _ => Normal "I see.")
      [("message", JString "sad"); ("userId", JString "5"); ("extra", JNull)]
      initial.
Proof.
  by apply user_is_its_property_key.
Defined.

(** *** The reply of the model *)

(** X15: [/roleplay] reads the reply of the model through its JSON part
    alone: two models whose replies have the same part between the first
    [{] and the last [}] (and fail alike) get the same response, the same
    stores and the same calls. *)
Theorem reply_read_through_its_json_part model1 model2 req_body st :
  (∀ prompt, json_part (model1 prompt) = json_part (model2 prompt)) ->
  handle RoleplayChat model1 req_body st = handle RoleplayChat model2 req_body st.
Proof.
  intros Hpart. unfold_handler.
  split_cases;
    repeat match goal with
      | H1 : model1 ?p = _, H2 : model2 ?p = _ |- _ =>
          let Hp := fresh in
          pose proof (Hpart p) as Hp; rewrite H1, H2 in Hp; cbn in Hp;
          clear H1 H2; simplify_eq
      end;
    same_call; try done; try congruence.
Qed.

Lemma reply_read_through_its_json_part_witness :
  (∀ prompt : string,
     json_part ((fun _ => Normal "Sure! {} Enjoy.") prompt)
     = json_part ((fun _ => Normal "{}") prompt))
  /\ handle RoleplayChat (fun _ => Normal "Sure! {} Enjoy.")
       [("userId", JString "u1"); ("scenario", JString "cafe");
        ("message", JString "hi")] initial
     = handle RoleplayChat (fun _ => Normal "{}")
         [("userId", JString "u1"); ("scenario", JString "cafe");
          ("message", JString "hi")] initial.
Proof.
  assert (Hpart : ∀ prompt : string,
            json_part ((fun _ => Normal "Sure! {} Enjoy.") prompt)
            = json_part ((fun _ => Normal "{}") prompt)) by reflexivity.
  split; [exact Hpart|].
  by apply reply_read_through_its_json_part.
Defined.

(** *** Content that has no string *)

Lemma sequence_throws {A : Type} (cs : list (Completion A)) e :
  Throw e ∈ cs -> ∃ e', sequence cs = Throw e'.
Proof.
  induction cs as [|c cs IH]; [by intros ?%elem_of_nil|].
  intros [<-|Hin]%elem_of_cons; cbn; [by eexists|].
  destruct c; cbn; [|by eexists].
  destruct (IH Hin) as [e' ->]. by eexists.
Qed.

Lemma history_lines_throws entries entry e :
  entry ∈ entries ->
  interpolate (Therapist.content entry) = Throw e ->
  ∃ e', history_lines entries = Throw e'.
Proof.
  intros Hin Hcontent. unfold history_lines.
  destruct (sequence_throws
              (map (fun msg =>
                      content ← interpolate (Therapist.content msg);
                      Normal ((if String.eqb (Therapist.role msg) "user"
                               then "User" else "AI") +:+ ": " +:+ content))
                   entries) e) as [e' ->]; [|by eexists].
  apply list_elem_of_fmap. exists entry. split; [|done]. by rewrite Hcontent.
Qed.

(** A [/therapist-chat] request past validation, for a user whose key is
    no inherited name: the history of the user when the [try] begins. *)
Lemma therapist_chat_history model req_body st key :
  ToBoolean (member "userId" req_body) = true ->
  ToBoolean (member "message" req_body) = true ->
  ToPropertyKey (member "userId" req_body) = Normal key ->
  Store.inherited key = false ->
  ∃ more,
    therapistHistory (after (handle TherapistChat model req_body st)) !! key
    = Some (default [] (therapistHistory st !! key)
            ++ {| Therapist.role := "user";
                  Therapist.content := member "message" req_body |} :: more).
Proof.
  intros Htruthy Hmessage Hkey Hown. unfold_handler.
  rewrite Htruthy, Hmessage, Hkey. cbn.
  split_cases; store_cases; rewrite ?lookup_insert_eq, <- ?(assoc_L (++));
    by eexists.
Qed.

(** X16: a [/therapist-chat] message that passes validation but has no
    string (an object with a [toString] member of its own) is answered 500
    and stays in the history; from then on every [/therapist-chat] request
    of that user is answered 500 before the model is called. *)
Theorem unprintable_message_blocks_therapist
    model1 body1 model2 body2 st key e :
  ToBoolean (member "userId" body1) = true ->
  ToBoolean (member "message" body1) = true ->
  ToPropertyKey (member "userId" body1) = Normal key ->
  Store.inherited key = false ->
  interpolate (member "message" body1) = Throw e ->
  ToBoolean (member "userId" body2) = true ->
  ToBoolean (member "message" body2) = true ->
  ToPropertyKey (member "userId" body2) = Normal key ->
  (∃ e1, outcome (handle TherapistChat model1 body1 st) = caught e1)
  /\ ∃ e2,
       outcome (handle TherapistChat model2 body2
                  (after (handle TherapistChat model1 body1 st)))
       = caught e2
       /\ model_calls (handle TherapistChat model2 body2
                         (after (handle TherapistChat model1 body1 st)))
          = [].
Proof.
  intros Hu1 Hm1 Hk1 Hown He Hu2 Hm2 Hk2.
  assert (Hblocked : ∀ model req_body st' entries entry,
            ToBoolean (member "userId" req_body) = true ->
            ToBoolean (member "message" req_body) = true ->
            ToPropertyKey (member "userId" req_body) = Normal key ->
            default [] (therapistHistory st' !! key)
            ++ [{| Therapist.role := "user";
                   Therapist.content := member "message" req_body |}]
            = entries ->
            entry ∈ entries ->
            interpolate (Therapist.content entry) = Throw e ->
            ∃ e',
              outcome (handle TherapistChat model req_body st') = caught e'
              /\ model_calls (handle TherapistChat model req_body st') = []).
  { intros model req_body st' entries entry Hu Hm Hk Hentries Hin Hcontent.
    destruct (history_lines_throws entries entry e Hin Hcontent) as [e' He'].
    revert Hentries. unfold_handler. rewrite Hu, Hm, Hk. cbn.
    split_cases; store_cases; rewrite ?lookup_insert_eq in *; intros;
      simplify_eq/=; same_call; try congruence; by eexists. }
  split.
  - destruct (Hblocked model1 body1 st _
                {| Therapist.role := "user";
                   Therapist.content := member "message" body1 |}
                Hu1 Hm1 Hk1 eq_refl) as (e1 & Hout & _); [set_solver|done|].
    by exists e1.
  - destruct (therapist_chat_history model1 body1 st key Hu1 Hm1 Hk1 Hown)
      as [more Hafter].
    apply (Hblocked model2 body2 _ _
             {| Therapist.role := "user";
                Therapist.content := member "message" body1 |}
             Hu2 Hm2 Hk2 eq_refl); [|done].
    rewrite Hafter. cbn. set_solver.
Qed.

Lemma unprintable_message_blocks_therapist_witness :
  ∃ e2,
    outcome
      (handle TherapistChat (fun _ => Normal "I am here.")
         [("userId", JString "u1"); ("message", JString "hello")]
         (after (handle TherapistChat (fun _ => Normal "I am here.")
                   [("userId", JString "u1");
                    ("message", JObject [("toString", JNull)])] initial)))
    = caught e2
    /\ model_calls
         (handle TherapistChat (fun _ => Normal "I am here.")
            [("userId", JString "u1"); ("message", JString "hello")]
            (after (handle TherapistChat (fun _ => Normal "I am here.")
                      [("userId", JString "u1");
                       ("message", JObject [("toString", JNull)])] initial)))
       = [].
Proof.
  exact (proj2 (unprintable_message_blocks_therapist
                  (fun _ => Normal "I am here.")
                  [("userId", JString "u1");
                   ("message", JObject [("toString", JNull)])]
                  (fun _ => Normal "I am here.")
                  [("userId", JString "u1"); ("message", JString "hello")]
                  initial "u1"
                  (TypeError "Cannot convert object to primitive value")
                  eq_refl eq_refl eq_refl eq_refl eq_refl
                  eq_refl eq_refl eq_refl)).
Defined.

(** *** The shape of a history *)

Lemma turns_user after_user roles :
  turns after_user (roles ++ ["user"]) = turns after_user roles.
Proof.
  revert after_user. induction roles as [|r roles IH]; intros p; [done|].
  cbn. destruct (String.eqb r "user"); [apply IH|].
  destruct (String.eqb r "ai"); [|done]. by rewrite IH.
Qed.

Lemma turns_user_ai after_user roles :
  turns after_user (roles ++ ["user"; "ai"]) = turns after_user roles.
Proof.
  revert after_user. induction roles as [|r roles IH]; intros p; [done|].
  cbn. destruct (String.eqb r "user"); [apply IH|].
  destruct (String.eqb r "ai"); [|done]. by rewrite IH.
Qed.

Lemma dialogue_user roles :
  roles = [] \/ dialogue roles = true -> dialogue (roles ++ ["user"]) = true.
Proof.
  destruct roles as [|r roles]; [done|]. intros [|H]; [done|].
  change (turns false ((r :: roles) ++ ["user"]) = true).
  by rewrite turns_user.
Qed.

Lemma dialogue_user_ai roles :
  roles = [] \/ dialogue roles = true ->
  dialogue (roles ++ ["user"; "ai"]) = true.
Proof.
  destruct roles as [|r roles]; [done|]. intros [|H]; [done|].
  change (turns false ((r :: roles) ++ ["user"; "ai"]) = true).
  by rewrite turns_user_ai.
Qed.

Lemma handle_dialogues route model req_body st :
  dialogues st -> dialogues (after (handle route model req_body st)).
Proof.
  intros [Hr Ht].
  destruct route; unfold_handler; split_cases; split; try done.
  all: rewrite ?clear_empty; store_cases; rewrite ?insert_insert_eq;
    unfold Store.remove; intros user history Hlookup;
    repeat match type of Hlookup with
      | ∅ !! _ = Some _ => by rewrite lookup_empty in Hlookup
      | delete _ _ !! _ = Some _ =>
          apply lookup_delete_Some in Hlookup as [_ Hlookup]
      | <[_ := _]> _ !! _ = Some _ =>
          apply lookup_insert_Some in Hlookup as [[<- <-]|[_ Hlookup]]
      end;
    try (by eauto);
    rewrite ?fmap_app, <- ?(assoc_L (++)); cbn;
    first [apply dialogue_user_ai|apply dialogue_user]; eauto.
Qed.

(** X17: when requests are handled one after another from the start of
    the process, every history in either store has an entry, its entries
    are [user] or [ai], and an [ai] entry comes only right after a [user]
    entry. *)
Theorem served_histories_are_dialogues requests :
  dialogues (serve requests initial).
Proof.
  assert (Hany : ∀ st, dialogues st -> dialogues (serve requests st)).
  { induction requests as [|request requests IH]; intros st Hst; [done|].
    cbn. apply IH. by apply handle_dialogues. }
  apply Hany. split; intros user entries Hlookup; cbn in Hlookup;
    by rewrite lookup_empty in Hlookup.
Qed.

(** X18: when requests are handled one after another from the start of
    the process, no store ever has a property of its own under a name of
    [Object.prototype]. *)
Theorem served_names_are_own requests :
  own_names_only (conversationHistory (serve requests initial))
  /\ own_names_only (therapistHistory (serve requests initial)).
Proof.
  assert (Hany : ∀ st,
    own_names_only (conversationHistory st)
    /\ own_names_only (therapistHistory st) ->
    own_names_only (conversationHistory (serve requests st))
    /\ own_names_only (therapistHistory (serve requests st))).
  { induction requests as [|request requests IH]; intros st [Hr Ht]; [done|].
    cbn. apply IH. by apply handle_own_names_only. }
  apply Hany. by split; intros k _; apply lookup_empty.
Qed.

End Properties.
